(** * Bootstrap and restore of a PostgreSQL instance

    A shallow embedding of

    - [pkg/management/postgres/initdb.go]: [InitInfo] with
      [VerifyConfiguration], [CreateDataDirectory], [GetInstance],
      [ConfigureApplicationEnvironment], [ConfigureReplica], [Bootstrap];
    - [internal/cmd/manager/instance/restore/cmd.go]: [restoreSubCommand]
      and [cleanupDataDirectoryIfNeeded].

    The Go code is a straight sequence of calls to collaborators (the file
    system helpers, [initdb], the SQL handle, the logger) with an early
    [return] after each of them.  It is embedded as a computation that
    threads an abstract world through the collaborators and records each
    call, with its arguments, in the order the code makes them.  Every
    theorem is stated for an arbitrary world and arbitrary collaborators;
    a small scripted world instantiates them on concrete requests. *)

From Stdlib Require Import String Ascii List ZArith Bool Lia.
Import ListNotations.
Local Open Scope string_scope.

(** ** Go values *)

Module Go.

(** [*barmanCommand.CloudRestoreError]: the only thing the code asks of
    it is [IsRetriable()]. *)
Record CloudRestoreError : Type := { IsRetriable : bool }.

(** A non-nil [error]. *)
Inductive error_value : Type :=
| Errorf (msg : string)                        (* fmt.Errorf(msg) *)
| Opaque (tag : string)                        (* returned by a collaborator *)
| Wrap (cause : error_value) (msg : string)    (* errors.Wrap(cause, msg) *)
| CloudRestore (e : CloudRestoreError).        (* a *CloudRestoreError *)

(** Go's [error]: [None] is [nil]. *)
Abbreviation error := (option error_value).

Definition is_nil (err : error) : bool :=
  match err with None => true | Some _ => false end.

(** [errors.As(err, &barmanError)] with a [*CloudRestoreError] target:
    the first error of that type along the [Unwrap] chain. *)
Fixpoint As_CloudRestoreError_value (e : error_value) : option CloudRestoreError :=
  match e with
  | CloudRestore b => Some b
  | Wrap cause _ => As_CloudRestoreError_value cause
  | Errorf _ | Opaque _ => None
  end.

Definition As_CloudRestoreError (err : error) : option CloudRestoreError :=
  match err with
  | None => None
  | Some e => As_CloudRestoreError_value e
  end.

(** [len(s) != 0] on a string. *)
Definition nonempty (s : string) : bool := negb (String.length s =? 0)%nat.

(** The line feed of a Go string literal's [\n]. *)
Definition LF : string := String "010"%char EmptyString.

End Go.

(** ** Computations that call collaborators

  A computation takes the world, and gives its result, the world it
  leaves and the calls it made, oldest first. *)

Module Effect.
Section Effect.

Context {W C : Type}.

Definition M (A : Type) : Type := W -> A * W * list C.

Definition ret {A} (a : A) : M A := fun w => (a, w, []).

Definition bind {A B} (m : M A) (f : A -> M B) : M B :=
  fun w =>
    let '(a, w1, t1) := m w in
    let '(b, w2, t2) := f a w1 in
    (b, w2, (t1 ++ t2)%list).

(** One call of a collaborator [f], recorded as [c]. *)
Definition call {A} (c : C) (f : W -> A * W) : M A :=
  fun w => let '(a, w') := f w in (a, w', [c]).

(** A call with no answer (a log line). *)
Definition emit (c : C) : M unit := fun w => (tt, w, [c]).

Definition result {A} (r : A * W * list C) : A := fst (fst r).
Definition world {A} (r : A * W * list C) : W := snd (fst r).
Definition trace {A} (r : A * W * list C) : list C := snd r.

End Effect.

Arguments M : clear implicits.

Module Notations.
Declare Scope effect_scope.
Delimit Scope effect_scope with effect.
Notation "x <- m ;; k" := (bind m (fun x => k))
  (at level 61, m at next level, right associativity) : effect_scope.
Notation "' p <- m ;; k" := (bind m (fun x => match x with p => k end))
  (at level 61, p pattern, m at next level, right associativity) : effect_scope.
Notation "m ;; k" := (bind m (fun _ => k))
  (at level 61, right associativity) : effect_scope.
End Notations.

End Effect.

(** ** Package [postgres]: [pkg/management/postgres/initdb.go] *)

Module Postgres.
Import Go Effect Effect.Notations.
Local Open Scope effect_scope.

(** [InitInfo] contains all the info needed to bootstrap a new PostgreSQL
    instance. *)
Record InitInfo : Type := {
  PgData : string;                  (* the data directory where to generate the new cluster *)
  PasswordFile : string;            (* the file containing the superuser password *)
  ApplicationDatabase : string;     (* the database to be generated for the applications *)
  ApplicationUser : string;         (* the role to be generated for the applications *)
  ApplicationPasswordFile : string; (* the password of that role *)
  HBARulesFile : string;            (* the HBA rules to add to the cluster *)
  PostgreSQLConfigFile : string;    (* the configuration to append *)
  ParentNode : string;              (* the parent node, used to fill primary_conninfo *)
  ClusterName : string              (* the cluster name to assign to *)
}.

(** The fields of [Instance] that [GetInstance] fills. *)
Record Instance : Type := {
  InstancePgData : string;
  StartupOptions : list string;
  Port : Z;
  InstanceApplicationDatabase : string
}.

(** The calls the code makes, [DB] being the type of [*sql.DB] handles. *)
Inductive Call (DB : Type) : Type :=
| CLogInfo (msg : string) (keysAndValues : list (string * string))
| CFileExists (fileName : string)
| CCombinedOutput (name : string) (args : list string)
| CAppendFile (targetFile fileToAppend : string)
| CAppendStringToFile (targetFile content : string)
| CReadFile (fileName : string)
| CGetMajorVersion (pgData : string)
| CStartup (instance : Instance)
| CShutdown (instance : Instance)
| CGetSuperUserDB (instance : Instance)
| CExec (db : DB) (query : string).

Arguments CLogInfo {DB}.
Arguments CFileExists {DB}.
Arguments CCombinedOutput {DB}.
Arguments CAppendFile {DB}.
Arguments CAppendStringToFile {DB}.
Arguments CReadFile {DB}.
Arguments CGetMajorVersion {DB}.
Arguments CStartup {DB}.
Arguments CShutdown {DB}.
Arguments CGetSuperUserDB {DB}.
Arguments CExec {DB}.

(** What the code imports and this file does not contain: each
    collaborator answers from the world and may change it. *)
Record Env (W DB : Type) : Type := {
  (* fileutils *)
  fileutils_FileExists : string -> W -> (bool * error) * W;
  fileutils_AppendFile : string -> string -> W -> error * W;
  fileutils_AppendStringToFile : string -> string -> W -> error * W;
  fileutils_ReadFile : string -> W -> (string * error) * W;
  (* exec.Command(name, args...).CombinedOutput() *)
  exec_CombinedOutput : string -> list string -> W -> (string * error) * W;
  (* path.Join of two elements *)
  path_Join : string -> string -> string;
  (* github.com/lib/pq *)
  pq_QuoteIdentifier : string -> string;
  pq_QuoteLiteral : string -> string;
  (* db.Exec(query), its sql.Result dropped *)
  sql_Exec : DB -> string -> W -> error * W;
  (* pkg/postgres *)
  postgres_GetMajorVersion : string -> W -> (Z * error) * W;
  (* methods of Instance *)
  instance_Startup : Instance -> W -> error * W;
  instance_Shutdown : Instance -> W -> error * W;
  instance_GetSuperUserDB : Instance -> W -> (DB * error) * W
}.

Arguments fileutils_FileExists {W DB}.
Arguments fileutils_AppendFile {W DB}.
Arguments fileutils_AppendStringToFile {W DB}.
Arguments fileutils_ReadFile {W DB}.
Arguments exec_CombinedOutput {W DB}.
Arguments path_Join {W DB}.
Arguments pq_QuoteIdentifier {W DB}.
Arguments pq_QuoteLiteral {W DB}.
Arguments sql_Exec {W DB}.
Arguments postgres_GetMajorVersion {W DB}.
Arguments instance_Startup {W DB}.
Arguments instance_Shutdown {W DB}.
Arguments instance_GetSuperUserDB {W DB}.

Section Program.

Context {W DB : Type} (env : Env W DB).

Abbreviation M := (Effect.M W (Call DB)).

(** *** The collaborators as recorded calls *)

Definition LogInfo (msg : string) (keysAndValues : list (string * string)) : M unit :=
  emit (CLogInfo msg keysAndValues).

Definition FileExists (fileName : string) : M (bool * error) :=
  call (CFileExists fileName) (fileutils_FileExists env fileName).

Definition AppendFile (targetFile fileToAppend : string) : M error :=
  call (CAppendFile targetFile fileToAppend)
       (fileutils_AppendFile env targetFile fileToAppend).

Definition AppendStringToFile (targetFile content : string) : M error :=
  call (CAppendStringToFile targetFile content)
       (fileutils_AppendStringToFile env targetFile content).

Definition ReadFile (fileName : string) : M (string * error) :=
  call (CReadFile fileName) (fileutils_ReadFile env fileName).

Definition CombinedOutput (name : string) (args : list string) : M (string * error) :=
  call (CCombinedOutput name args) (exec_CombinedOutput env name args).

Definition Exec (db : DB) (query : string) : M error :=
  call (CExec db query) (sql_Exec env db query).

Definition GetMajorVersion (pgData : string) : M (Z * error) :=
  call (CGetMajorVersion pgData) (postgres_GetMajorVersion env pgData).

Definition Startup (instance : Instance) : M error :=
  call (CStartup instance) (instance_Startup env instance).

Definition Shutdown (instance : Instance) : M error :=
  call (CShutdown instance) (instance_Shutdown env instance).

Definition GetSuperUserDB (instance : Instance) : M (DB * error) :=
  call (CGetSuperUserDB instance) (instance_GetSuperUserDB env instance).

(** *** [VerifyConfiguration] *)

(** The messages of the [fmt.Errorf] calls, [%v] of a string being the
    string. *)
Definition msgSuperuserPasswordFile (path : string) : string :=
  "superuser password file doesn't exist (" ++ path ++ ")".
Definition msgApplicationPasswordFile (path : string) : string :=
  "application user's password file doesn't exist (" ++ path ++ ")".
Definition msgPgDataExists : string := "PGData directories already exist".
Definition msgHBARulesFile (path : string) : string :=
  "hba rules file doesn't exist (" ++ path ++ ")".
Definition msgPostgreSQLConfigFile (path : string) : string :=
  "postgresql config file doesn't exist (" ++ path ++ ")".
Definition msgApplicationUserEmpty : string :=
  "the name of the application user is empty".
Definition msgApplicationDatabaseEmpty : string :=
  "the name of the application database is empty".

(** [VerifyConfiguration] verifies if the passed configuration is OK and
    returns an error otherwise. *)
Definition VerifyConfiguration (info : InitInfo) : M error :=
  '(passwordFileExists, err) <- FileExists (PasswordFile info) ;;
  if negb (is_nil err) then ret err else
  if negb passwordFileExists then
    ret (Some (Errorf (msgSuperuserPasswordFile (PasswordFile info)))) else
  '(applicationPasswordFileExists, err) <- FileExists (ApplicationPasswordFile info) ;;
  if negb (is_nil err) then ret err else
  if negb applicationPasswordFileExists then
    ret (Some (Errorf (msgApplicationPasswordFile (PasswordFile info)))) else
  '(pgdataExists, err) <- FileExists (PgData info) ;;
  if negb (is_nil err) then ret err else
  if pgdataExists then
    ret (Some (Errorf msgPgDataExists)) else
  (* the [if len(info.HBARulesFile) != 0] block: its early return, or nil *)
  returned <-
    (if nonempty (HBARulesFile info) then
       '(hbaRulesFileExists, err) <- FileExists (HBARulesFile info) ;;
       if negb (is_nil err) then ret err else
       if negb hbaRulesFileExists then
         ret (Some (Errorf (msgHBARulesFile (HBARulesFile info))))
       else ret None
     else ret None) ;;
  if negb (is_nil returned) then ret returned else
  (* the [if len(info.PostgreSQLConfigFile) != 0] block *)
  returned <-
    (if nonempty (PostgreSQLConfigFile info) then
       '(postgresConfigFileExists, err) <- FileExists (PostgreSQLConfigFile info) ;;
       if negb (is_nil err) then ret err else
       if negb postgresConfigFileExists then
         ret (Some (Errorf (msgPostgreSQLConfigFile (HBARulesFile info))))
       else ret None
     else ret None) ;;
  if negb (is_nil returned) then ret returned else
  if (String.length (ApplicationUser info) =? 0)%nat then
    ret (Some (Errorf msgApplicationUserEmpty)) else
  if (String.length (ApplicationDatabase info) =? 0)%nat then
    ret (Some (Errorf msgApplicationDatabaseEmpty)) else
  ret None.

(** *** [CreateDataDirectory] *)

Definition archiveStanza : string :=
  "archive_mode = on" ++ LF ++
  "archive_command = '/controller/manager wal-archive %p'".

Definition initdbOptions (info : InitInfo) : list string :=
  ["--username"; "postgres"; "--pwfile"; PasswordFile info; "-D"; PgData info].

(** [CreateDataDirectory] creates a new data directory given the
    configuration. *)
Definition CreateDataDirectory (info : InitInfo) : M error :=
  LogInfo "Creating new data directory" [("pgdata", PgData info)] ;;
  (* invoke initdb to generate a data directory *)
  '(stdOutErr, err) <- CombinedOutput "initdb" (initdbOptions info) ;;
  if negb (is_nil err) then
    LogInfo "initdb output" [("output", stdOutErr)] ;;
    ret (option_map (fun e => Wrap e "Error while creating the PostgreSQL instance") err)
  else
  (* add HBA info and PostgreSQL configuration *)
  returned <-
    (if nonempty (HBARulesFile info) then
       err <- AppendFile (path_Join env (PgData info) "pg_hba.conf") (HBARulesFile info) ;;
       ret (option_map
              (fun e => Wrap e "appending to pg_hba.conf file resulted in an error") err)
     else ret None) ;;
  if negb (is_nil returned) then ret returned else
  returned <-
    (if nonempty (PostgreSQLConfigFile info) then
       err <- AppendFile (path_Join env (PgData info) "postgresql.conf")
                         (PostgreSQLConfigFile info) ;;
       ret (option_map
              (fun e => Wrap e "appending to postgresql.conf file resulted in an error") err)
     else ret None) ;;
  if negb (is_nil returned) then ret returned else
  (* always enable archive_mode and attach the instance controller to it *)
  err <- AppendStringToFile (path_Join env (PgData info) "postgresql.conf") archiveStanza ;;
  if negb (is_nil err) then
    ret (option_map
           (fun e => Wrap e "appending to postgresql.conf file resulted in an error") err)
  else ret None.

(** [GetInstance] gets the PostgreSQL instance which corresponds to these
    init information. *)
Definition GetInstance (info : InitInfo) : Instance :=
  {| InstancePgData := PgData info;
     StartupOptions := ["listen_addresses='127.0.0.1'"];
     Port := 5432;
     InstanceApplicationDatabase := ApplicationDatabase info |}.

(** *** [ConfigureApplicationEnvironment] *)

Definition stmtCreateUser (info : InitInfo) : string :=
  "CREATE USER " ++ pq_QuoteIdentifier env (ApplicationUser info).

Definition stmtAlterUserPassword (info : InitInfo) (ApplicationPassword : string) : string :=
  "ALTER USER " ++ pq_QuoteIdentifier env (ApplicationUser info) ++
  " PASSWORD " ++ pq_QuoteLiteral env ApplicationPassword.

Definition stmtCreateDatabase (info : InitInfo) : string :=
  "CREATE DATABASE " ++ pq_QuoteIdentifier env (ApplicationDatabase info) ++
  " OWNER " ++ pq_QuoteIdentifier env (ApplicationUser info).

Definition stmtClusterName (info : InitInfo) : string :=
  "ALTER SYSTEM SET cluster_name TO " ++ pq_QuoteIdentifier env (ClusterName info).

(** [ConfigureApplicationEnvironment] creates the environment for an
    application to run against this PostgreSQL instance given a connection
    pool. *)
Definition ConfigureApplicationEnvironment (info : InitInfo) (db : DB) : M error :=
  err <- Exec db (stmtCreateUser info) ;;
  if negb (is_nil err) then ret err else
  '(ApplicationPassword, err) <- ReadFile (ApplicationPasswordFile info) ;;
  if negb (is_nil err) then ret err else
  err <- Exec db (stmtAlterUserPassword info ApplicationPassword) ;;
  if negb (is_nil err) then ret err else
  err <- Exec db (stmtCreateDatabase info) ;;
  if negb (is_nil err) then ret err else
  err <- Exec db (stmtClusterName info) ;;
  if negb (is_nil err) then ret err else
  ret None.

(** *** [ConfigureReplica] *)

Definition primaryConnInfo (info : InitInfo) : string :=
  "host=" ++ ParentNode info ++ " user=postgres dbname=" ++ "postgres".

Definition stmtPrimaryConnInfo (info : InitInfo) : string :=
  "ALTER SYSTEM SET primary_conninfo TO " ++ pq_QuoteLiteral env (primaryConnInfo info).

Definition stmtRecoveryTargetTimeline : string :=
  "ALTER SYSTEM SET recovery_target_timeline TO 'latest'".

(** [ConfigureReplica] sets the [primary_conninfo] field in the PostgreSQL
    system.  This must be invoked only on PostgreSQL version >= 12. *)
Definition ConfigureReplica (info : InitInfo) (db : DB) : M error :=
  err <- Exec db (stmtPrimaryConnInfo info) ;;
  if negb (is_nil err) then ret err else
  (* this parameter will be used when this master will be degraded *)
  err <- Exec db stmtRecoveryTargetTimeline ;;
  if negb (is_nil err) then ret err else
  ret None.

(** *** [Bootstrap] *)

(** Modelled from the spec: [Instance.WithActiveInstance], which is not
    among the source files.  It starts the engine; if startup itself fails,
    [inner] is never invoked and the startup error is returned directly;
    otherwise it runs [inner], stops the engine on every exit path of
    [inner], and propagates the result of [inner]. *)
Definition WithActiveInstance (instance : Instance) (inner : M error) : M error :=
  err <- Startup instance ;;
  if negb (is_nil err) then ret err else
  result <- inner ;;
  _ <- Shutdown instance ;;
  ret result.

(** The function literal [Bootstrap] hands to [WithActiveInstance]. *)
Definition BootstrapInner (info : InitInfo) (instance : Instance) (majorVersion : Z)
  : M error :=
  '(db, err) <- GetSuperUserDB instance ;;
  if negb (is_nil err) then ret None else
  err <- ConfigureApplicationEnvironment info db ;;
  if negb (is_nil err) then ret None else
  if (majorVersion >=? 12)%Z then
    err <- ConfigureReplica info db ;;
    ret err
  else
  ret None.

(** [Bootstrap] creates and configures this new PostgreSQL instance. *)
Definition Bootstrap (info : InitInfo) : M error :=
  err <- CreateDataDirectory info ;;
  if negb (is_nil err) then ret err else
  let instance := GetInstance info in
  '(majorVersion, err) <- GetMajorVersion (InstancePgData instance) ;;
  if negb (is_nil err) then ret None else
  WithActiveInstance instance (BootstrapInner info instance majorVersion).

End Program.
End Postgres.

(** ** Package [restore]: [internal/cmd/manager/instance/restore/cmd.go] *)

Module Restore.
Import Go Effect Effect.Notations.
Local Open Scope effect_scope.

(** The fields of [postgres.InitInfo] that [NewCmd] fills. *)
Record InitInfo : Type := {
  ClusterName : string;
  Namespace : string;
  PgData : string;
  PgWal : string
}.

Inductive Call : Type :=
| CLogInfo (msg : string) (keysAndValues : list (string * string))
| CLogError (err : error) (msg : string) (keysAndValues : list (string * string))
| CCheckTargetDataDirectory (info : InitInfo)
| CRestore (info : InitInfo)
| CRemoveDirectory (dir : string).

Record Env (W : Type) : Type := {
  info_CheckTargetDataDirectory : InitInfo -> W -> error * W;
  info_Restore : InitInfo -> W -> error * W;
  fileutils_RemoveDirectory : string -> W -> error * W;
  os_IsNotExist : error -> bool
}.

Arguments info_CheckTargetDataDirectory {W}.
Arguments info_Restore {W}.
Arguments fileutils_RemoveDirectory {W}.
Arguments os_IsNotExist {W}.

Section Program.

Context {W : Type} (env : Env W).

Abbreviation M := (Effect.M W Call).

Definition LogInfo (msg : string) (keysAndValues : list (string * string)) : M unit :=
  emit (CLogInfo msg keysAndValues).

Definition LogError (err : error) (msg : string) (keysAndValues : list (string * string))
  : M unit :=
  emit (CLogError err msg keysAndValues).

Definition CheckTargetDataDirectory (info : InitInfo) : M error :=
  call (CCheckTargetDataDirectory info) (info_CheckTargetDataDirectory env info).

Definition RestoreBackup (info : InitInfo) : M error :=
  call (CRestore info) (info_Restore env info).

Definition RemoveDirectory (dir : string) : M error :=
  call (CRemoveDirectory dir) (fileutils_RemoveDirectory env dir).

Definition cleanupDataDirectoryIfNeeded (restoreError : error) (dataDirectory : string)
  : M unit :=
  match As_CloudRestoreError restoreError with
  | None => ret tt
  | Some barmanError =>
      if negb (IsRetriable barmanError) then ret tt else
      LogInfo "Cleaning up data directory" [("directory", dataDirectory)] ;;
      err <- RemoveDirectory dataDirectory ;;
      if negb (is_nil err) && negb (os_IsNotExist env err) then
        LogError err "error occurred cleaning up data directory"
                 [("directory", dataDirectory)]
      else ret tt
  end.

Definition restoreSubCommand (info : InitInfo) : M error :=
  err <- CheckTargetDataDirectory info ;;
  if negb (is_nil err) then ret err else
  err <- RestoreBackup info ;;
  if negb (is_nil err) then
    LogError err "Error while restoring a backup" [] ;;
    cleanupDataDirectoryIfNeeded err (PgData info) ;;
    ret err
  else
  LogInfo "restore command execution completed without errors" [] ;;
  ret None.

(** [RunE] of the command [NewCmd] builds, on the values of its flags. *)
Definition RunE (clusterName namespace pgData pgWal : string) : M error :=
  restoreSubCommand
    {| ClusterName := clusterName; Namespace := namespace;
       PgData := pgData; PgWal := pgWal |}.

(** The classification of the design: a restore failure is retriable,
    terminal or unclassified. *)
Inductive RetriableClassification : Type := Retriable | Terminal | Unclassified.

Definition Classify (e : error_value) : RetriableClassification :=
  match As_CloudRestoreError_value e with
  | Some barmanError => if IsRetriable barmanError then Retriable else Terminal
  | None => Unclassified
  end.

Definition isRemoveDirectory (dir : string) (c : Call) : bool :=
  match c with
  | CRemoveDirectory d => String.eqb d dir
  | _ => false
  end.

Definition isCleanupFailureLog (c : Call) : bool :=
  match c with
  | CLogError _ msg _ => String.eqb msg "error occurred cleaning up data directory"
  | _ => false
  end.

End Program.
End Restore.

(** ** Reading a trace *)

Module Trace.
Import Postgres.

Section Trace.
Context {DB : Type}.

(** The SQL statements of a trace, in the order they were issued. *)
Fixpoint statements (t : list (Call DB)) : list string :=
  match t with
  | [] => []
  | CExec _ query :: t' => query :: statements t'
  | _ :: t' => statements t'
  end.

Definition isFileExists (c : Call DB) : bool :=
  match c with CFileExists _ => true | _ => false end.

(** A call that changes something: everything but a log line, a file
    existence query, a file read and the engine version query. *)
Definition isMutation (c : Call DB) : bool :=
  match c with
  | CLogInfo _ _ | CFileExists _ | CReadFile _ | CGetMajorVersion _ => false
  | _ => true
  end.

(** The calls of the provisioner [CreateDataDirectory]. *)
Definition isProvisioning (c : Call DB) : bool :=
  match c with
  | CLogInfo _ _ | CCombinedOutput _ _ | CAppendFile _ _ | CAppendStringToFile _ _ => true
  | _ => false
  end.

(** The calls made on the SQL handle's behalf: a statement, or the read
    of the password file. *)
Definition isConfiguring (c : Call DB) : bool :=
  match c with
  | CExec _ _ | CReadFile _ => true
  | _ => false
  end.

Definition isStanzaAppend (c : Call DB) : bool :=
  match c with
  | CAppendStringToFile _ content => String.eqb content archiveStanza
  | _ => false
  end.

Definition isInitdb (c : Call DB) : bool :=
  match c with CCombinedOutput name _ => String.eqb name "initdb" | _ => false end.

Definition isStartup (c : Call DB) : bool :=
  match c with CStartup _ => true | _ => false end.

(** [ConfigureReplica] opens with the [primary_conninfo] statement, and
    nothing else issues one. *)
Definition opensConfigureReplica (c : Call DB) : bool :=
  match c with
  | CExec _ query => String.prefix "ALTER SYSTEM SET primary_conninfo TO " query
  | _ => false
  end.

Definition ConfigureReplicaInvocations (t : list (Call DB)) : nat :=
  List.length (List.filter opensConfigureReplica t).

End Trace.
End Trace.

(** ** A scripted world

    Collaborators that answer from a script: which paths exist, what the
    files hold, the engine version, and which calls fail.  The world counts
    the calls answered. *)

Module Scripted.
Import Go Postgres.

Definition DB : Type := string.

Record Script : Type := {
  present : list string;
  contents : list (string * string);
  engineVersion : Z;
  refused : Call DB -> bool
}.

Definition failure (tag : string) (c : Call DB) (s : Script) : error :=
  if refused s c then Some (Opaque tag) else None.

Fixpoint lookup (k : string) (l : list (string * string)) : string :=
  match l with
  | [] => ""
  | (k', v) :: l' => if String.eqb k k' then v else lookup k l'
  end.

Definition member (k : string) (l : list string) : bool :=
  List.existsb (String.eqb k) l.

(** [strings.Replace(s, old, new, -1)] for a one-byte [old]. *)
Fixpoint replaceByte (old : ascii) (new : string) (s : string) : string :=
  match s with
  | EmptyString => EmptyString
  | String a s' =>
      if Ascii.eqb a old then new ++ replaceByte old new s'
      else String a (replaceByte old new s')
  end.

Fixpoint containsByte (c : ascii) (s : string) : bool :=
  match s with
  | EmptyString => false
  | String a s' => Ascii.eqb a c || containsByte c s'
  end.

(** [name[:strings.IndexRune(name, 0)]], or [name] without a NUL. *)
Fixpoint untilNUL (name : string) : string :=
  match name with
  | EmptyString => EmptyString
  | String a s' => if Ascii.eqb a Ascii.zero then EmptyString else String a (untilNUL s')
  end.

Definition doubleQuote : string := String "034"%char EmptyString.

(** [pq.QuoteIdentifier] of github.com/lib/pq. *)
Definition QuoteIdentifier (name : string) : string :=
  doubleQuote ++
  replaceByte "034"%char (doubleQuote ++ doubleQuote) (untilNUL name) ++
  doubleQuote.

(** [pq.QuoteLiteral] of github.com/lib/pq. *)
Definition QuoteLiteral (literal : string) : string :=
  let literal := replaceByte "'"%char "''" literal in
  if containsByte "\"%char literal then
    " E'" ++ replaceByte "\"%char "\\" literal ++ "'"
  else "'" ++ literal ++ "'".

Definition tick {A} (a : A) (w : nat) : A * nat := (a, S w).

Definition env (s : Script) : Env nat DB :=
  {| fileutils_FileExists := fun p =>
       tick (match failure "stat failed" (CFileExists p) s with
             | Some e => (false, Some e)
             | None => (member p (present s), None)
             end);
     fileutils_AppendFile := fun target source =>
       tick (failure "append failed" (CAppendFile target source) s);
     fileutils_AppendStringToFile := fun target content =>
       tick (failure "append failed" (CAppendStringToFile target content) s);
     fileutils_ReadFile := fun p =>
       tick (match failure "read failed" (CReadFile p) s with
             | Some e => ("", Some e)
             | None => (lookup p (contents s), None)
             end);
     exec_CombinedOutput := fun name args =>
       tick (match failure "exit status 1" (CCombinedOutput name args) s with
             | Some e => ("initdb: error", Some e)
             | None => ("", None)
             end);
     path_Join := fun dir file => dir ++ "/" ++ file;
     pq_QuoteIdentifier := QuoteIdentifier;
     pq_QuoteLiteral := QuoteLiteral;
     sql_Exec := fun db query =>
       tick (failure "pq: statement failed" (CExec db query) s);
     postgres_GetMajorVersion := fun pgData =>
       tick (match failure "PG_VERSION unreadable" (CGetMajorVersion pgData) s with
             | Some e => (0%Z, Some e)
             | None => (engineVersion s, None)
             end);
     instance_Startup := fun i =>
       tick (failure "pg_ctl start failed" (CStartup i) s);
     instance_Shutdown := fun i =>
       tick (failure "pg_ctl stop failed" (CShutdown i) s);
     instance_GetSuperUserDB := fun i =>
       tick (match failure "connection refused" (CGetSuperUserDB i) s with
             | Some e => ("", Some e)
             | None => ("postgres@127.0.0.1", None)
             end) |}.

(** A request the validator accepts, on an engine of version 13. *)
Definition request : InitInfo :=
  {| PgData := "/var/lib/postgresql/data/pgdata";
     PasswordFile := "/etc/superuser-secret/password";
     ApplicationDatabase := "appdb";
     ApplicationUser := "app";
     ApplicationPasswordFile := "/etc/app-secret/password";
     HBARulesFile := "/etc/configuration/pg_hba.conf";
     PostgreSQLConfigFile := "/etc/configuration/postgresql.conf";
     ParentNode := "cluster-example-rw";
     ClusterName := "cluster-example" |}.

Definition script : Script :=
  {| present := ["/etc/superuser-secret/password"; "/etc/app-secret/password";
                 "/etc/configuration/pg_hba.conf"; "/etc/configuration/postgresql.conf"];
     contents := [("/etc/app-secret/password", "it's a secret")];
     engineVersion := 13;
     refused := fun _ => false |}.

Definition refusing (f : Call DB -> bool) (s : Script) : Script :=
  {| present := present s; contents := contents s;
     engineVersion := engineVersion s; refused := f |}.

Definition onVersion (v : Z) (s : Script) : Script :=
  {| present := present s; contents := contents s;
     engineVersion := v; refused := refused s |}.

(** The scripts of the runs examined below. *)

Definition isFirstAppend (c : Call DB) : bool :=
  match c with
  | CAppendFile _ source => String.eqb source "/etc/configuration/pg_hba.conf"
  | _ => false
  end.

Definition isSuperUserDB (c : Call DB) : bool :=
  match c with CGetSuperUserDB _ => true | _ => false end.

Definition isCreateUser (c : Call DB) : bool :=
  match c with CExec _ query => String.prefix "CREATE USER" query | _ => false end.

Definition isVersionQuery (c : Call DB) : bool :=
  match c with CGetMajorVersion _ => true | _ => false end.

Definition accessRulesUnreadable : Script := refusing isFirstAppend script.
Definition superuserRefused : Script := refusing isSuperUserDB script.
Definition createUserRefused : Script := refusing isCreateUser script.
Definition versionUnreadable : Script := refusing isVersionQuery script.

(** The target data directory is already there. *)
Definition occupied : Script :=
  {| present := "/var/lib/postgresql/data/pgdata" :: present script;
     contents := contents script;
     engineVersion := engineVersion script;
     refused := refused script |}.

(** No application password file, and an extra configuration file that
    is set and missing. *)
Definition noApplicationPassword : Script :=
  {| present := ["/etc/superuser-secret/password"];
     contents := []; engineVersion := 13; refused := fun _ => false |}.

Definition noExtraConfiguration : Script :=
  {| present := ["/etc/superuser-secret/password"; "/etc/app-secret/password";
                 "/etc/configuration/pg_hba.conf"];
     contents := []; engineVersion := 13; refused := fun _ => false |}.

(** A request without an application user. *)
Definition anonymous : InitInfo :=
  {| PgData := PgData request;
     PasswordFile := PasswordFile request;
     ApplicationDatabase := ApplicationDatabase request;
     ApplicationUser := "";
     ApplicationPasswordFile := ApplicationPasswordFile request;
     HBARulesFile := HBARulesFile request;
     PostgreSQLConfigFile := PostgreSQLConfigFile request;
     ParentNode := ParentNode request;
     ClusterName := ClusterName request |}.

End Scripted.

(** The same for the restore command: the answers of the three
    collaborators are fixed by the script. *)

Module ScriptedRestore.
Import Go Restore.

Record Script : Type := {
  checkAnswer : error;
  restoreAnswer : error;
  removeAnswer : error;
  notExist : error -> bool
}.

Definition env (s : Script) : Env nat :=
  {| info_CheckTargetDataDirectory := fun _ w => (checkAnswer s, S w);
     info_Restore := fun _ w => (restoreAnswer s, S w);
     fileutils_RemoveDirectory := fun _ w => (removeAnswer s, S w);
     os_IsNotExist := notExist s |}.

Definition request : InitInfo :=
  {| ClusterName := "cluster-example"; Namespace := "default";
     PgData := "/var/lib/postgresql/data/pgdata"; PgWal := "" |}.

Definition isENOENT (err : error) : bool :=
  match err with
  | Some (Opaque tag) => String.eqb tag "no such file or directory"
  | _ => false
  end.

Definition failingWith (e : error_value) (removal : error) : Script :=
  {| checkAnswer := None; restoreAnswer := Some e;
     removeAnswer := removal; notExist := isENOENT |}.

End ScriptedRestore.

(** ** The validator as the design states it

    The design gives the validator as seven checks, run in order, the
    first failure being the answer.  [Validate] is that reading; it is
    compared with [Postgres.VerifyConfiguration] below.  A check that
    cannot be evaluated (the existence query itself fails) fails with the
    error of the query. *)

Module Design.
Import Go Effect Effect.Notations Postgres.
Local Open Scope effect_scope.

Section Design.
Context {W DB : Type} (env : Env W DB).

Abbreviation M := (Effect.M W (Call DB)).

Definition mustExist (path : string) (violation : string) : M error :=
  '(found, err) <- FileExists env path ;;
  match err with
  | Some _ => ret err
  | None => if found then ret None else ret (Some (Errorf violation))
  end.

Definition mustNotExist (path : string) (violation : string) : M error :=
  '(found, err) <- FileExists env path ;;
  match err with
  | Some _ => ret err
  | None => if found then ret (Some (Errorf violation)) else ret None
  end.

Definition ifSet (path : string) (check : M error) : M error :=
  match path with
  | EmptyString => ret None
  | String _ _ => check
  end.

Definition mustBeNonEmpty (name : string) (violation : string) : M error :=
  match name with
  | EmptyString => ret (Some (Errorf violation))
  | String _ _ => ret None
  end.

Definition checks (info : InitInfo) : list (M error) :=
  [ (* 1. superuser password file exists *)
    mustExist (PasswordFile info) (msgSuperuserPasswordFile (PasswordFile info));
    (* 2. application password file exists *)
    mustExist (ApplicationPasswordFile info)
              (msgApplicationPasswordFile (PasswordFile info));
    (* 3. target data directory does not exist *)
    mustNotExist (PgData info) msgPgDataExists;
    (* 4. if an access-rules file path is set, it exists *)
    ifSet (HBARulesFile info)
          (mustExist (HBARulesFile info) (msgHBARulesFile (HBARulesFile info)));
    (* 5. if an extra-configuration file path is set, it exists *)
    ifSet (PostgreSQLConfigFile info)
          (mustExist (PostgreSQLConfigFile info)
                     (msgPostgreSQLConfigFile (HBARulesFile info)));
    (* 6. application user name is non-empty *)
    mustBeNonEmpty (ApplicationUser info) msgApplicationUserEmpty;
    (* 7. application database name is non-empty *)
    mustBeNonEmpty (ApplicationDatabase info) msgApplicationDatabaseEmpty ].

(** First failure wins: the checks after it are not run. *)
Fixpoint firstFailure (cs : list (M error)) : M error :=
  match cs with
  | [] => ret None
  | c :: cs' =>
      err <- c ;;
      match err with
      | Some _ => ret err
      | None => firstFailure cs'
      end
  end.

Definition Validate (info : InitInfo) : M error := firstFailure (checks info).

(** Every check of [cs] passes when they are run in turn from [w]. *)
Fixpoint allPass (cs : list (M error)) (w : W) : Prop :=
  match cs with
  | [] => True
  | c :: cs' => result (c w) = None /\ allPass cs' (world (c w))
  end.

(** The application environment as the design states it: four
    statements in order, the password read from its file before the
    second; a step that fails ends the run with the error it gave.
    [quote] is the quoting of the cluster name. *)

Definition createUser (info : InitInfo) : string :=
  "CREATE USER " ++ pq_QuoteIdentifier env (ApplicationUser info).

Definition alterUserPassword (info : InitInfo) (password : string) : string :=
  "ALTER USER " ++ pq_QuoteIdentifier env (ApplicationUser info)
  ++ " PASSWORD " ++ pq_QuoteLiteral env password.

Definition createDatabase (info : InitInfo) : string :=
  "CREATE DATABASE " ++ pq_QuoteIdentifier env (ApplicationDatabase info)
  ++ " OWNER " ++ pq_QuoteIdentifier env (ApplicationUser info).

Definition setClusterName (quote : string -> string) (info : InitInfo) : string :=
  "ALTER SYSTEM SET cluster_name TO " ++ quote (ClusterName info).

Inductive Configured (quote : string -> string) (info : InitInfo) (db : DB) (w : W)
  : error * W * list (Call DB) -> Prop :=
| CreateUserFailed e w1 :
    sql_Exec env db (createUser info) w = (Some e, w1) ->
    Configured quote info db w
      (Some e, w1, [CExec db (createUser info)])
| PasswordUnreadable e password w1 w2 :
    sql_Exec env db (createUser info) w = (None, w1) ->
    fileutils_ReadFile env (ApplicationPasswordFile info) w1 = ((password, Some e), w2) ->
    Configured quote info db w
      (Some e, w2,
       [CExec db (createUser info); CReadFile (ApplicationPasswordFile info)])
| AlterUserFailed e password w1 w2 w3 :
    sql_Exec env db (createUser info) w = (None, w1) ->
    fileutils_ReadFile env (ApplicationPasswordFile info) w1 = ((password, None), w2) ->
    sql_Exec env db (alterUserPassword info password) w2 = (Some e, w3) ->
    Configured quote info db w
      (Some e, w3,
       [CExec db (createUser info); CReadFile (ApplicationPasswordFile info);
        CExec db (alterUserPassword info password)])
| CreateDatabaseFailed e password w1 w2 w3 w4 :
    sql_Exec env db (createUser info) w = (None, w1) ->
    fileutils_ReadFile env (ApplicationPasswordFile info) w1 = ((password, None), w2) ->
    sql_Exec env db (alterUserPassword info password) w2 = (None, w3) ->
    sql_Exec env db (createDatabase info) w3 = (Some e, w4) ->
    Configured quote info db w
      (Some e, w4,
       [CExec db (createUser info); CReadFile (ApplicationPasswordFile info);
        CExec db (alterUserPassword info password); CExec db (createDatabase info)])
| Completed err password w1 w2 w3 w4 w5 :
    sql_Exec env db (createUser info) w = (None, w1) ->
    fileutils_ReadFile env (ApplicationPasswordFile info) w1 = ((password, None), w2) ->
    sql_Exec env db (alterUserPassword info password) w2 = (None, w3) ->
    sql_Exec env db (createDatabase info) w3 = (None, w4) ->
    sql_Exec env db (setClusterName quote info) w4 = (err, w5) ->
    Configured quote info db w
      (err, w5,
       [CExec db (createUser info); CReadFile (ApplicationPasswordFile info);
        CExec db (alterUserPassword info password); CExec db (createDatabase info);
        CExec db (setClusterName quote info)]).

End Design.
End Design.

(** ** The hooks of the restore command

    [NewCmd] of [restore/cmd.go] gives the command a [PreRunE] and a
    [PostRunE] besides [RunE] (which is [Restore.RunE]). *)

Module Hooks.
Import Go Effect Effect.Notations.
Local Open Scope effect_scope.

Inductive Call : Type :=
| CWaitForGetCluster (name namespace : string)
| CTryInvokeQuitEndpoint
| CTryInvokeShutdownEndpoint.

Record Env (W : Type) : Type := {
  management_WaitForGetCluster : string -> string -> W -> error * W;
  istio_TryInvokeQuitEndpoint : W -> error * W;
  linkerd_TryInvokeShutdownEndpoint : W -> error * W
}.

Arguments management_WaitForGetCluster {W}.
Arguments istio_TryInvokeQuitEndpoint {W}.
Arguments linkerd_TryInvokeShutdownEndpoint {W}.

Section Program.
Context {W : Type} (env : Env W).

Abbreviation M := (Effect.M W Call).

(** [ctrl.ObjectKey{Name: clusterName, Namespace: namespace}] is passed
    as its two fields. *)
Definition PreRunE (clusterName namespace : string) : M error :=
  call (CWaitForGetCluster clusterName namespace)
       (management_WaitForGetCluster env clusterName namespace).

Definition PostRunE : M error :=
  err <- call CTryInvokeQuitEndpoint (istio_TryInvokeQuitEndpoint env) ;;
  if negb (is_nil err) then ret err else
  call CTryInvokeShutdownEndpoint (linkerd_TryInvokeShutdownEndpoint env).

End Program.
End Hooks.

(** ** What a run may contain *)

Module Shape.
Import Go Postgres.

Section Shape.
Context {W DB : Type} (env : Env W DB).

(** The calls [CreateDataDirectory] may make on a request: a log line,
    [initdb] on its options, the append of a set access-rules file to
    [pg_hba.conf], the append of a set extra configuration file to
    [postgresql.conf], the append of the stanza to [postgresql.conf]. *)
Definition provisions (info : InitInfo) (c : Call DB) : Prop :=
  match c with
  | CLogInfo _ _ => True
  | CCombinedOutput name args => name = "initdb" /\ args = initdbOptions info
  | CAppendFile target source =>
      (target = path_Join env (PgData info) "pg_hba.conf" /\
       source = HBARulesFile info /\ nonempty source = true) \/
      (target = path_Join env (PgData info) "postgresql.conf" /\
       source = PostgreSQLConfigFile info /\ nonempty source = true)
  | CAppendStringToFile target content =>
      target = path_Join env (PgData info) "postgresql.conf" /\
      content = archiveStanza
  | _ => False
  end.

(** The three messages [CreateDataDirectory] wraps an error with. *)
Definition provisioningMessages : list string :=
  [ "Error while creating the PostgreSQL instance";
    "appending to pg_hba.conf file resulted in an error";
    "appending to postgresql.conf file resulted in an error" ].

(** The existence queries of [VerifyConfiguration] on a request, the
    optional files being queried only when set. *)
Definition validatorQueries (info : InitInfo) : list (Call DB) :=
  ([ CFileExists (PasswordFile info);
     CFileExists (ApplicationPasswordFile info);
     CFileExists (PgData info) ]
   ++ (if nonempty (HBARulesFile info) then [CFileExists (HBARulesFile info)] else [])
   ++ (if nonempty (PostgreSQLConfigFile info)
       then [CFileExists (PostgreSQLConfigFile info)] else []))%list.

(** The seven errors [VerifyConfiguration] makes itself. *)
Definition validatorErrors (info : InitInfo) : list error_value :=
  [ Errorf ("superuser password file doesn't exist (" ++ PasswordFile info ++ ")");
    Errorf ("application user's password file doesn't exist (" ++ PasswordFile info ++ ")");
    Errorf "PGData directories already exist";
    Errorf ("hba rules file doesn't exist (" ++ HBARulesFile info ++ ")");
    Errorf ("postgresql config file doesn't exist (" ++ HBARulesFile info ++ ")");
    Errorf "the name of the application user is empty";
    Errorf "the name of the application database is empty" ].

(** The statements of a bootstrap on an engine of version [v], the
    application password being [password]. *)
Definition bootstrapStatements (info : InitInfo) (password : string) (v : Z)
  : list string :=
  ([ stmtCreateUser env info;
     stmtAlterUserPassword env info password;
     stmtCreateDatabase env info;
     stmtClusterName env info ]
   ++ (if (v >=? 12)%Z
       then [stmtPrimaryConnInfo env info; stmtRecoveryTargetTimeline]
       else []))%list.

End Shape.

Definition isRemoval (c : Restore.Call) : bool :=
  match c with
  | Restore.CRemoveDirectory _ => true
  | _ => false
  end.

End Shape.

(** ** More scripted runs *)

Module Runs.
Import Go Postgres.

Definition isInitdbRun (c : Call Scripted.DB) : bool :=
  match c with CCombinedOutput _ _ => true | _ => false end.

Definition isSecondAppend (c : Call Scripted.DB) : bool :=
  match c with
  | CAppendFile _ source => String.eqb source "/etc/configuration/postgresql.conf"
  | _ => false
  end.

Definition isPrimaryConnInfo (c : Call Scripted.DB) : bool :=
  match c with
  | CExec _ query => String.prefix "ALTER SYSTEM SET primary_conninfo" query
  | _ => false
  end.

Definition initdbFails : Scripted.Script := Scripted.refusing isInitdbRun Scripted.script.
Definition extraConfigurationUnreadable : Scripted.Script :=
  Scripted.refusing isSecondAppend Scripted.script.
Definition replicaRefused : Scripted.Script :=
  Scripted.refusing isPrimaryConnInfo Scripted.script.

(** The hooks, the mesh sidecar refusing to quit or not. *)
Definition hooks (quit : error) : Hooks.Env nat :=
  {| Hooks.management_WaitForGetCluster := fun _ _ w => (None, S w);
     Hooks.istio_TryInvokeQuitEndpoint := fun w => (quit, S w);
     Hooks.linkerd_TryInvokeShutdownEndpoint := fun w => (None, S w) |}.

(** A restore whose target is refused. *)
Definition targetRefused : ScriptedRestore.Script :=
  {| ScriptedRestore.checkAnswer := Some (Opaque "target is not empty");
     ScriptedRestore.restoreAnswer := None;
     ScriptedRestore.removeAnswer := None;
     ScriptedRestore.notExist := ScriptedRestore.isENOENT |}.

(** A restore that succeeds. *)
Definition restored : ScriptedRestore.Script :=
  {| ScriptedRestore.checkAnswer := None;
     ScriptedRestore.restoreAnswer := None;
     ScriptedRestore.removeAnswer := None;
     ScriptedRestore.notExist := ScriptedRestore.isENOENT |}.

End Runs.

(** ** A disk for the restore command

    A world that is the list of the directories present.  The restore
    fills the data directory and fails; the removal is refused when the
    script says so, and otherwise deletes the directory or reports that
    it is missing. *)

Module Disk.
Import Go Restore.

Definition World : Type := list string.

Definition dirExists (w : World) (dir : string) : bool :=
  List.existsb (String.eqb dir) w.

Definition delete (dir : string) (w : World) : World :=
  List.filter (fun d => negb (String.eqb dir d)) w.

Record Script : Type := {
  restoreFailure : error_value;
  denied : bool
}.

Definition env (s : Script) : Env World :=
  {| info_CheckTargetDataDirectory := fun _ w => (None, w);
     info_Restore := fun info w => (Some (restoreFailure s), PgData info :: w);
     fileutils_RemoveDirectory := fun dir w =>
       if denied s then (Some (Opaque "permission denied"), w)
       else if dirExists w dir then (None, delete dir w)
       else (Some (Opaque "no such file or directory"), w);
     os_IsNotExist := ScriptedRestore.isENOENT |}.

Definition transferInterrupted : error_value :=
  Wrap (CloudRestore {| IsRetriable := true |}) "restoring backup".

Definition removable : Script :=
  {| restoreFailure := transferInterrupted; denied := false |}.

Definition readOnly : Script :=
  {| restoreFailure := transferInterrupted; denied := true |}.

End Disk.

(** * Theorems *)

Import Go Effect Effect.Notations.

(** ** Running computations *)

Section Laws.
Context {W C : Type}.

Lemma bind_ret_l {A B} (a : A) (f : A -> M W C B) (w : W) :
  bind (ret a) f w = f a w.
Proof.
  unfold bind, ret. destruct (f a w) as [[b w2] t2]. reflexivity.
Qed.

Lemma bind_world {A B} (m : M W C A) (f : A -> M W C B) (w : W) :
  world (bind m f w) = world (f (result (m w)) (world (m w))).
Proof.
  unfold bind, world, result. destruct (m w) as [[a w1] t1]. simpl.
  destruct (f a w1) as [[b w2] t2]. reflexivity.
Qed.

Lemma bind_result {A B} (m : M W C A) (f : A -> M W C B) (w : W) :
  result (bind m f w) = result (f (result (m w)) (world (m w))).
Proof.
  unfold bind, world, result. destruct (m w) as [[a w1] t1]. simpl.
  destruct (f a w1) as [[b w2] t2]. reflexivity.
Qed.

Lemma bind_trace {A B} (m : M W C A) (f : A -> M W C B) (w : W) :
  trace (bind m f w) =
  (trace (m w) ++ trace (f (result (m w)) (world (m w))))%list.
Proof.
  unfold bind, world, result, trace. destruct (m w) as [[a w1] t1]. simpl.
  destruct (f a w1) as [[b w2] t2]. reflexivity.
Qed.

End Laws.

(** Case analysis on the answer of the next collaborator, then on the
    error and the flag it gave. *)
Ltac answer :=
  match goal with
  | |- context [match ?X with _ => _ end] =>
      lazymatch X with
      | context [match _ with _ => _ end] => fail
      | _ => first [ is_var X; destruct X
                   | let E := fresh "E" in destruct X eqn:E ]
      end
  end.

Ltac answers := repeat (answer; cbn [negb is_nil option_map andb]).

(** ** The validator *)

Section Validator.
Import Postgres Design.
Context {W DB : Type} (env : Env W DB).

Lemma firstFailure_cons (c : M W (Call DB) error) cs w :
  firstFailure (c :: cs) w =
  match result (c w) with
  | Some e => (Some e, world (c w), trace (c w))
  | None =>
      (result (firstFailure cs (world (c w))),
       world (firstFailure cs (world (c w))),
       (trace (c w) ++ trace (firstFailure cs (world (c w))))%list)
  end.
Proof.
  cbn [firstFailure]. unfold bind, result, world, trace.
  destruct (c w) as [[[e|] w1] t1]; cbn [fst snd].
  - unfold ret. now rewrite app_nil_r.
  - now destruct (firstFailure cs w1) as [[r w2] t2].
Qed.

(** The iteration succeeds exactly when every check passes. *)
Lemma firstFailure_allPass (cs : list (M W (Call DB) error)) :
  forall w, result (firstFailure cs w) = None <-> allPass cs w.
Proof.
  induction cs as [|c cs IH]; intros w.
  - cbn. tauto.
  - rewrite firstFailure_cons. cbn [allPass].
    destruct (result (c w)) as [e|] eqn:Hc.
    + cbn. split; [discriminate | intros [H _]; discriminate].
    + unfold result at 1. cbn [fst]. fold (result (firstFailure cs (world (c w)))).
      rewrite IH. tauto.
Qed.

(** When the checks of [before] pass and [c] fails, the error is the one
    of [c], and no check after [c] is run. *)
Lemma firstFailure_first_wins (before after : list (M W (Call DB) error)) c e :
  forall w,
    allPass before w ->
    result (c (world (firstFailure before w))) = Some e ->
    result (firstFailure (before ++ c :: after) w) = Some e /\
    trace (firstFailure (before ++ c :: after) w) =
    (trace (firstFailure before w) ++ trace (c (world (firstFailure before w))))%list.
Proof.
  induction before as [|b before IH]; intros w Hpass Hc.
  - change (world (firstFailure [] w)) with w in Hc.
    cbn [app]. rewrite firstFailure_cons, Hc. now cbn.
  - destruct Hpass as [Hb Hpass].
    assert (Hw : world (firstFailure (b :: before) w) =
                 world (firstFailure before (world (b w)))).
    { rewrite firstFailure_cons, Hb. reflexivity. }
    rewrite Hw in *.
    destruct (IH _ Hpass Hc) as [Hr Ht].
    cbn [app]. rewrite !firstFailure_cons, Hb.
    split; [exact Hr|].
    cbn [trace snd]. fold (@trace W (Call DB)).
    rewrite Ht, app_assoc. reflexivity.
Qed.

Ltac file_query :=
  match goal with
  | |- context [fileutils_FileExists ?e ?p ?w] =>
      destruct (fileutils_FileExists e p w) as [[[|] [?|]] ?]
  end.

(** The code, with its nested early returns, is the iteration of the
    seven checks. *)
Lemma VerifyConfiguration_Validate (info : InitInfo) (w : W) :
  VerifyConfiguration env info w = Validate env info w.
Proof.
  destruct info as [pgdata pwfile appdb appuser apppwfile hba conf parent cluster].
  unfold VerifyConfiguration, Validate, checks, firstFailure,
    mustExist, mustNotExist, ifSet, mustBeNonEmpty, FileExists, bind, call, ret.
  cbn [PgData PasswordFile ApplicationDatabase ApplicationUser
       ApplicationPasswordFile HBARulesFile PostgreSQLConfigFile].
  do 3 (file_query; cbn [negb is_nil]; try reflexivity).
  destruct hba as [|h hba], conf as [|c conf];
    cbn [nonempty String.length Nat.eqb negb is_nil];
    repeat (file_query; cbn [negb is_nil]; try reflexivity);
    destruct appuser, appdb; reflexivity.
Qed.

(** C3. [VerifyConfiguration] evaluates the seven checks in the order
    superuser password file exists, application password file exists,
    target data directory does not exist, access-rules file exists if
    set, extra-configuration file exists if set, application user name
    non-empty, application database name non-empty: it is the iteration
    [Validate] of that list; it succeeds exactly when every check passes;
    and when the checks before one pass and that one fails, the error
    returned is the error of that check and no later check is run (the
    trace stops with the failing check). *)
Theorem VerifyConfiguration_first_failure_wins (info : InitInfo) (w : W) :
  VerifyConfiguration env info w = Validate env info w /\
  (result (VerifyConfiguration env info w) = None <-> allPass (checks env info) w) /\
  (forall before c after e,
      checks env info = (before ++ c :: after)%list ->
      allPass before w ->
      result (c (world (firstFailure before w))) = Some e ->
      result (VerifyConfiguration env info w) = Some e /\
      trace (VerifyConfiguration env info w) =
      (trace (firstFailure before w) ++ trace (c (world (firstFailure before w))))%list).
Proof.
  split; [apply VerifyConfiguration_Validate|].
  rewrite VerifyConfiguration_Validate. unfold Validate. split.
  - apply firstFailure_allPass.
  - intros before c after e Hsplit Hpass Hfail. rewrite Hsplit.
    now apply firstFailure_first_wins.
Qed.

(** C10. When the superuser password file exists and the application
    password file does not, the error names the superuser password file
    ([PasswordFile]), not [ApplicationPasswordFile]; and when the checks
    before it pass and the extra configuration file is set and missing,
    the error names the access-rules file ([HBARulesFile]), not
    [PostgreSQLConfigFile]. *)
Theorem VerifyConfiguration_reports_other_path (info : InitInfo) :
  (forall w w1 w2,
      fileutils_FileExists env (PasswordFile info) w = ((true, None), w1) ->
      fileutils_FileExists env (ApplicationPasswordFile info) w1 = ((false, None), w2) ->
      result (VerifyConfiguration env info w) =
      Some (Errorf ("application user's password file doesn't exist ("
                    ++ PasswordFile info ++ ")"))) /\
  (forall w w1 w2 w3 w4 w5,
      fileutils_FileExists env (PasswordFile info) w = ((true, None), w1) ->
      fileutils_FileExists env (ApplicationPasswordFile info) w1 = ((true, None), w2) ->
      fileutils_FileExists env (PgData info) w2 = ((false, None), w3) ->
      (if nonempty (HBARulesFile info)
       then fileutils_FileExists env (HBARulesFile info) w3 = ((true, None), w4)
       else w4 = w3) ->
      nonempty (PostgreSQLConfigFile info) = true ->
      fileutils_FileExists env (PostgreSQLConfigFile info) w4 = ((false, None), w5) ->
      result (VerifyConfiguration env info w) =
      Some (Errorf ("postgresql config file doesn't exist ("
                    ++ HBARulesFile info ++ ")"))).
Proof.
  split.
  - intros w w1 w2 H1 H2.
    unfold VerifyConfiguration, FileExists, bind, call, ret.
    rewrite H1. cbn [negb is_nil]. rewrite H2. reflexivity.
  - intros w w1 w2 w3 w4 w5 H1 H2 H3 H4 Hset H5.
    unfold VerifyConfiguration, FileExists, bind, call, ret.
    rewrite H1. cbn [negb is_nil]. rewrite H2. cbn [negb is_nil].
    rewrite H3. cbn [negb is_nil]. rewrite Hset.
    destruct (nonempty (HBARulesFile info)).
    + rewrite H4. cbn [negb is_nil]. rewrite H5. reflexivity.
    + subst w4. cbn [negb is_nil]. rewrite H5. reflexivity.
Qed.

End Validator.

Lemma VerifyConfiguration_first_failure_wins_witness :
  result (Postgres.VerifyConfiguration (Scripted.env Scripted.script) Scripted.anonymous 0)
  = Some (Errorf "the name of the application user is empty").
Proof.
  pose (e := Scripted.env Scripted.script).
  pose (cs := Design.checks e Scripted.anonymous).
  refine (proj1 (proj2 (proj2
            (VerifyConfiguration_first_failure_wins e Scripted.anonymous 0))
            (firstn 5 cs) (nth 5 cs (ret None)) (skipn 6 cs) _ eq_refl _ eq_refl)).
  vm_compute. repeat split; reflexivity.
Defined.

(** On a request that passes, the existence queries are made in the
    order of the checks. *)
Example VerifyConfiguration_accepts_request :
  Postgres.VerifyConfiguration (Scripted.env Scripted.script) Scripted.request 0 =
  (None, 5,
   [Postgres.CFileExists "/etc/superuser-secret/password";
    Postgres.CFileExists "/etc/app-secret/password";
    Postgres.CFileExists "/var/lib/postgresql/data/pgdata";
    Postgres.CFileExists "/etc/configuration/pg_hba.conf";
    Postgres.CFileExists "/etc/configuration/postgresql.conf"]).
Proof. reflexivity. Qed.

Lemma VerifyConfiguration_reports_other_path_witness :
  result (Postgres.VerifyConfiguration
            (Scripted.env Scripted.noApplicationPassword) Scripted.request 0)
  = Some (Errorf "application user's password file doesn't exist (/etc/superuser-secret/password)")
  /\
  result (Postgres.VerifyConfiguration
            (Scripted.env Scripted.noExtraConfiguration) Scripted.request 0)
  = Some (Errorf "postgresql config file doesn't exist (/etc/configuration/pg_hba.conf)").
Proof.
  split.
  - exact (proj1 (VerifyConfiguration_reports_other_path
                    (Scripted.env Scripted.noApplicationPassword) Scripted.request)
                 0 1 2 eq_refl eq_refl).
  - exact (proj2 (VerifyConfiguration_reports_other_path
                    (Scripted.env Scripted.noExtraConfiguration) Scripted.request)
                 0 1 2 3 4 5 eq_refl eq_refl eq_refl eq_refl eq_refl eq_refl).
Defined.

(** ** The provisioner *)

Section Provisioner.
Import Postgres Trace.
Context {W DB : Type} (env : Env W DB).

Ltac provision :=
  unfold CreateDataDirectory, LogInfo, CombinedOutput, AppendFile, AppendStringToFile,
    bind, call, emit, ret.

(** [CreateDataDirectory] calls the logger, [initdb] and the two append
    helpers, and nothing else. *)
Lemma CreateDataDirectory_provisioning (info : InitInfo) (w : W) :
  forallb isProvisioning (trace (CreateDataDirectory env info w)) = true.
Proof.
  provision.
  destruct (exec_CombinedOutput env "initdb" (initdbOptions info) w) as [[out [e|]] w1];
    cbn [negb is_nil]; [reflexivity|].
  destruct (nonempty (HBARulesFile info)), (nonempty (PostgreSQLConfigFile info));
    answers; reflexivity.
Qed.

(** C4, as amended.  When [initdb] succeeds and each append of a supplied
    optional file succeeds, the calls of [CreateDataDirectory] are: the
    log line, [initdb], the append of the access rules to [pg_hba.conf]
    if supplied, the append of the extra configuration to
    [postgresql.conf] if supplied, and last the append to
    [postgresql.conf] of the fixed stanza that turns [archive_mode] on and
    sets [archive_command] to [/controller/manager wal-archive %p].  The
    world [CreateDataDirectory] leaves is the world that last append
    leaves; the result is nil exactly when that append succeeds, and
    otherwise its error, wrapped. *)
Theorem CreateDataDirectory_appends_stanza
    (info : InitInfo) (w w1 w2 w3 : W) (out : string) :
  exec_CombinedOutput env "initdb" (initdbOptions info) w = ((out, None), w1) ->
  (if nonempty (HBARulesFile info)
   then fileutils_AppendFile env (path_Join env (PgData info) "pg_hba.conf")
                             (HBARulesFile info) w1 = (None, w2)
   else w2 = w1) ->
  (if nonempty (PostgreSQLConfigFile info)
   then fileutils_AppendFile env (path_Join env (PgData info) "postgresql.conf")
                             (PostgreSQLConfigFile info) w2 = (None, w3)
   else w3 = w2) ->
  CreateDataDirectory env info w =
    (option_map (fun e => Wrap e "appending to postgresql.conf file resulted in an error")
                (fst (fileutils_AppendStringToFile
                        env (path_Join env (PgData info) "postgresql.conf")
                        ("archive_mode = on" ++ LF ++
                         "archive_command = '/controller/manager wal-archive %p'") w3)),
     snd (fileutils_AppendStringToFile
            env (path_Join env (PgData info) "postgresql.conf")
            ("archive_mode = on" ++ LF ++
             "archive_command = '/controller/manager wal-archive %p'") w3),
     ([CLogInfo "Creating new data directory" [("pgdata", PgData info)];
       CCombinedOutput "initdb"
         ["--username"; "postgres"; "--pwfile"; PasswordFile info; "-D"; PgData info]]
      ++ (if nonempty (HBARulesFile info)
          then [CAppendFile (path_Join env (PgData info) "pg_hba.conf")
                            (HBARulesFile info)]
          else [])
      ++ (if nonempty (PostgreSQLConfigFile info)
          then [CAppendFile (path_Join env (PgData info) "postgresql.conf")
                            (PostgreSQLConfigFile info)]
          else [])
      ++ [CAppendStringToFile
            (path_Join env (PgData info) "postgresql.conf")
            ("archive_mode = on" ++ LF ++
             "archive_command = '/controller/manager wal-archive %p'")])%list)
  /\ (result (CreateDataDirectory env info w) = None <->
      fst (fileutils_AppendStringToFile
             env (path_Join env (PgData info) "postgresql.conf")
             ("archive_mode = on" ++ LF ++
              "archive_command = '/controller/manager wal-archive %p'") w3) = None).
Proof.
  intros Hinitdb Hhba Hconf.
  change ("archive_mode = on" ++ LF ++
          "archive_command = '/controller/manager wal-archive %p'") with archiveStanza.
  provision. rewrite Hinitdb. cbn [negb is_nil].
  destruct (nonempty (HBARulesFile info)); [rewrite Hhba | subst w2];
    cbn [negb is_nil option_map];
    (destruct (nonempty (PostgreSQLConfigFile info)); [rewrite Hconf | subst w3]);
    cbn [negb is_nil option_map];
    destruct (fileutils_AppendStringToFile env _ archiveStanza _) as [[e|] w4];
    cbn [fst snd option_map result negb is_nil app];
    (split; [reflexivity | split; (discriminate || reflexivity)]).
Qed.

End Provisioner.

Lemma CreateDataDirectory_appends_stanza_witness :
  Postgres.CreateDataDirectory (Scripted.env Scripted.script) Scripted.request 0 =
  (None, 4,
   [Postgres.CLogInfo "Creating new data directory"
      [("pgdata", "/var/lib/postgresql/data/pgdata")];
    Postgres.CCombinedOutput "initdb" (Postgres.initdbOptions Scripted.request);
    Postgres.CAppendFile "/var/lib/postgresql/data/pgdata/pg_hba.conf"
      "/etc/configuration/pg_hba.conf";
    Postgres.CAppendFile "/var/lib/postgresql/data/pgdata/postgresql.conf"
      "/etc/configuration/postgresql.conf";
    Postgres.CAppendStringToFile "/var/lib/postgresql/data/pgdata/postgresql.conf"
      Postgres.archiveStanza]).
Proof.
  exact (proj1 (CreateDataDirectory_appends_stanza
                  (Scripted.env Scripted.script) Scripted.request 0 1 2 3 ""
                  eq_refl eq_refl eq_refl)).
Defined.

(** C4, as stated, fails: [initdb] succeeds, the access rules cannot be
    appended, and [CreateDataDirectory] returns that error without
    appending the stanza. *)
Lemma CreateDataDirectory_stanza_not_always_appended :
  Postgres.exec_CombinedOutput (Scripted.env Scripted.accessRulesUnreadable) "initdb"
    (Postgres.initdbOptions Scripted.request) 0 = (("", None), 1)
  /\ result (Postgres.CreateDataDirectory
               (Scripted.env Scripted.accessRulesUnreadable) Scripted.request 0)
     = Some (Wrap (Opaque "append failed")
                  "appending to pg_hba.conf file resulted in an error")
  /\ existsb Trace.isStanzaAppend
       (trace (Postgres.CreateDataDirectory
                 (Scripted.env Scripted.accessRulesUnreadable) Scripted.request 0))
     = false.
Proof. repeat split; reflexivity. Qed.

(** ** The SQL configuration *)

Section Configurator.
Import Postgres Trace Design.
Context {W DB : Type} (env : Env W DB).

(** C5, as amended.  [ConfigureApplicationEnvironment] issues
    [CREATE USER <app>], [ALTER USER <app> PASSWORD <literal>],
    [CREATE DATABASE <db> OWNER <app>] and
    [ALTER SYSTEM SET cluster_name TO <name>] in that order, reading the
    password file between the first and the second; the application user,
    the database and the cluster name are quoted with [pq.QuoteIdentifier]
    and the password with [pq.QuoteLiteral]; a step that fails, the read
    of the password file included, ends the run, and its error is the
    result. *)
Theorem ConfigureApplicationEnvironment_statements
    (info : InitInfo) (db : DB) (w : W) :
  Configured env (pq_QuoteIdentifier env) info db w
             (ConfigureApplicationEnvironment env info db w).
Proof.
  unfold ConfigureApplicationEnvironment, Exec, ReadFile, bind, call, ret.
  destruct (sql_Exec env db (stmtCreateUser env info) w) as [[e1|] w1] eqn:H1;
    cbn [negb is_nil]; [solve [econstructor; eassumption]|].
  destruct (fileutils_ReadFile env (ApplicationPasswordFile info) w1)
    as [[password [e2|]] w2] eqn:H2;
    cbn [negb is_nil]; [solve [econstructor; eassumption]|].
  destruct (sql_Exec env db (stmtAlterUserPassword env info password) w2)
    as [[e3|] w3] eqn:H3;
    cbn [negb is_nil]; [solve [econstructor; eassumption]|].
  destruct (sql_Exec env db (stmtCreateDatabase env info) w3) as [[e4|] w4] eqn:H4;
    cbn [negb is_nil]; [solve [econstructor; eassumption]|].
  destruct (sql_Exec env db (stmtClusterName env info) w4) as [[e5|] w5] eqn:H5;
    cbn [negb is_nil]; solve [econstructor; eassumption].
Qed.

(** [ConfigureApplicationEnvironment] makes configuring calls only, and
    none of them opens [ConfigureReplica]. *)
Lemma ConfigureApplicationEnvironment_calls (info : InitInfo) (db : DB) (w : W) :
  forallb isConfiguring (trace (ConfigureApplicationEnvironment env info db w)) = true /\
  ConfigureReplicaInvocations (trace (ConfigureApplicationEnvironment env info db w)) = 0.
Proof.
  unfold ConfigureApplicationEnvironment, Exec, ReadFile, bind, call, ret.
  answers; split; reflexivity.
Qed.

(** The run of [ConfigureReplica], by the answers to its statements. *)
Lemma ConfigureReplica_run (info : InitInfo) (db : DB) (w : W) :
  ConfigureReplica env info db w =
  match sql_Exec env db (stmtPrimaryConnInfo env info) w with
  | (Some e, w1) => (Some e, w1, [CExec db (stmtPrimaryConnInfo env info)])
  | (None, w1) =>
      (fst (sql_Exec env db stmtRecoveryTargetTimeline w1),
       snd (sql_Exec env db stmtRecoveryTargetTimeline w1),
       [CExec db (stmtPrimaryConnInfo env info); CExec db stmtRecoveryTargetTimeline])
  end.
Proof.
  unfold ConfigureReplica, Exec, bind, call, ret.
  destruct (sql_Exec env db (stmtPrimaryConnInfo env info) w) as [[e1|] w1];
    cbn [negb is_nil]; [reflexivity|].
  destruct (sql_Exec env db stmtRecoveryTargetTimeline w1) as [[e2|] w2]; reflexivity.
Qed.

(** C7. [ConfigureReplica] issues [ALTER SYSTEM SET primary_conninfo TO]
    the literal (quoted with [pq.QuoteLiteral]) of the connection string
    [host=<ParentNode> user=postgres dbname=postgres]; if that statement
    fails its error is returned and nothing else is issued; otherwise it
    issues [ALTER SYSTEM SET recovery_target_timeline TO 'latest'] and
    returns the answer of that statement. *)
Theorem ConfigureReplica_statements (info : InitInfo) (db : DB) (w : W) :
  let primary :=
    "ALTER SYSTEM SET primary_conninfo TO "
    ++ pq_QuoteLiteral env ("host=" ++ ParentNode info ++ " user=postgres dbname=postgres") in
  let timeline := "ALTER SYSTEM SET recovery_target_timeline TO 'latest'" in
  ConfigureReplica env info db w =
  match sql_Exec env db primary w with
  | (Some e, w1) => (Some e, w1, [CExec db primary])
  | (None, w1) =>
      (fst (sql_Exec env db timeline w1), snd (sql_Exec env db timeline w1),
       [CExec db primary; CExec db timeline])
  end.
Proof.
  exact (ConfigureReplica_run info db w).
Qed.

Lemma prefix_empty (s : string) : String.prefix "" s = true.
Proof. destruct s; reflexivity. Qed.

(** One run of [ConfigureReplica] opens exactly once, and makes
    configuring calls only. *)
Lemma ConfigureReplica_calls (info : InitInfo) (db : DB) (w : W) :
  forallb isConfiguring (trace (ConfigureReplica env info db w)) = true /\
  ConfigureReplicaInvocations (trace (ConfigureReplica env info db w)) = 1.
Proof.
  rewrite ConfigureReplica_run.
  destruct (sql_Exec env db _ w) as [[e1|] w1];
    (split; [reflexivity|]);
    unfold ConfigureReplicaInvocations; cbn; rewrite prefix_empty; reflexivity.
Qed.

End Configurator.

(** C5, as stated, fails: with every step succeeding, the fourth
    statement quotes the cluster name as an identifier, not as the
    literal the claim has. *)
Lemma ConfigureApplicationEnvironment_cluster_name_not_literal :
  ~ Design.Configured (Scripted.env Scripted.script) Scripted.QuoteLiteral
      Scripted.request "postgres@127.0.0.1" 0
      (Postgres.ConfigureApplicationEnvironment
         (Scripted.env Scripted.script) Scripted.request "postgres@127.0.0.1" 0).
Proof.
  intros H. vm_compute in H. inversion H.
Qed.
(** ** The orchestrator *)

Section Orchestrator.
Import Postgres Trace Design.
Context {W DB : Type} (env : Env W DB).

(** *** Counting in traces *)

Lemma statements_app (a b : list (Call DB)) :
  statements (a ++ b) = (statements a ++ statements b)%list.
Proof.
  induction a as [|c a IH]; [reflexivity|].
  destruct c; cbn; now rewrite ?IH.
Qed.

Lemma invocations_app (a b : list (Call DB)) :
  ConfigureReplicaInvocations (a ++ b) =
  ConfigureReplicaInvocations a + ConfigureReplicaInvocations b.
Proof.
  unfold ConfigureReplicaInvocations. now rewrite filter_app, length_app.
Qed.

(** The provisioner's calls query nothing, start nothing and issue no
    statement. *)
Lemma provisioning_only (t : list (Call DB)) :
  forallb isProvisioning t = true ->
  existsb isFileExists t = false /\ existsb isStartup t = false /\
  statements t = [] /\ ConfigureReplicaInvocations t = 0.
Proof.
  induction t as [|c t IH]; [now cbn|].
  cbn [forallb]. intros H. apply andb_true_iff in H as [Hc Ht].
  destruct (IH Ht) as (Hq & Hs & Hst & Hn).
  destruct c; try discriminate Hc; cbn; auto.
Qed.

Lemma configuring_only (t : list (Call DB)) :
  forallb isConfiguring t = true ->
  existsb isFileExists t = false /\ existsb isStartup t = false.
Proof.
  induction t as [|c t IH]; [now cbn|].
  cbn [forallb]. intros H. apply andb_true_iff in H as [Hc Ht].
  destruct (IH Ht) as (Hq & Hs).
  destruct c; try discriminate Hc; cbn; auto.
Qed.

(** *** The runs of [Bootstrap] *)

Lemma BootstrapInner_run (info : InitInfo) (i : Instance) (v : Z) (w : W) :
  BootstrapInner env info i v w =
  match instance_GetSuperUserDB env i w with
  | ((_, Some _), w1) => (None, w1, [CGetSuperUserDB i])
  | ((db, None), w1) =>
      match ConfigureApplicationEnvironment env info db w1 with
      | (Some _, w2, t2) => (None, w2, CGetSuperUserDB i :: t2)
      | (None, w2, t2) =>
          if (v >=? 12)%Z then
            (result (ConfigureReplica env info db w2),
             world (ConfigureReplica env info db w2),
             CGetSuperUserDB i :: t2 ++ trace (ConfigureReplica env info db w2))%list
          else (None, w2, CGetSuperUserDB i :: t2)
      end
  end.
Proof.
  unfold BootstrapInner, GetSuperUserDB, bind, call, ret.
  destruct (instance_GetSuperUserDB env i w) as [[db [e|]] w1]; cbn [negb is_nil];
    [reflexivity|].
  destruct (ConfigureApplicationEnvironment env info db w1) as [[[e|] w2] t2];
    cbn [negb is_nil]; [cbn; now rewrite app_nil_r|].
  destruct (v >=? 12)%Z.
  - destruct (ConfigureReplica env info db w2) as [[r w3] t3].
    cbn. now rewrite app_nil_r.
  - cbn. now rewrite app_nil_r.
Qed.

Lemma Bootstrap_run (info : InitInfo) (w : W) :
  Bootstrap env info w =
  match CreateDataDirectory env info w with
  | (Some e, w1, t1) => (Some e, w1, t1)
  | (None, w1, t1) =>
      match postgres_GetMajorVersion env (PgData info) w1 with
      | ((_, Some _), w2) => (None, w2, t1 ++ [CGetMajorVersion (PgData info)])%list
      | ((v, None), w2) =>
          match instance_Startup env (GetInstance info) w2 with
          | (Some e, w3) =>
              (Some e, w3,
               t1 ++ [CGetMajorVersion (PgData info); CStartup (GetInstance info)])%list
          | (None, w3) =>
              (result (BootstrapInner env info (GetInstance info) v w3),
               snd (instance_Shutdown env (GetInstance info)
                      (world (BootstrapInner env info (GetInstance info) v w3))),
               t1 ++ CGetMajorVersion (PgData info) :: CStartup (GetInstance info)
                  :: trace (BootstrapInner env info (GetInstance info) v w3)
                  ++ [CShutdown (GetInstance info)])%list
          end
      end
  end.
Proof.
  unfold Bootstrap, bind at 1.
  destruct (CreateDataDirectory env info w) as [[[e|] w1] t1]; cbn [negb is_nil].
  - unfold ret. now rewrite app_nil_r.
  - unfold GetMajorVersion, WithActiveInstance, Startup, Shutdown, bind, call, ret.
    cbn [InstancePgData GetInstance].
    destruct (postgres_GetMajorVersion env (PgData info) w1) as [[v [e|]] w2];
      cbn [negb is_nil]; [reflexivity|].
    fold (GetInstance info).
    destruct (instance_Startup env (GetInstance info) w2) as [[e|] w3];
      cbn [negb is_nil]; [reflexivity|].
    destruct (BootstrapInner env info (GetInstance info) v w3) as [[r w4] t4].
    cbn [result world trace fst snd].
    destruct (instance_Shutdown env (GetInstance info) w4) as [e5 w5].
    reflexivity.
Qed.

Lemma BootstrapInner_calls (info : InitInfo) (i : Instance) (v : Z) (w : W) :
  existsb isFileExists (trace (BootstrapInner env info i v w)) = false /\
  ConfigureReplicaInvocations (trace (BootstrapInner env info i v w)) <= 1 /\
  ((v < 12)%Z -> ConfigureReplicaInvocations (trace (BootstrapInner env info i v w)) = 0).
Proof.
  rewrite BootstrapInner_run.
  destruct (instance_GetSuperUserDB env i w) as [[db [e|]] w1];
    [cbn; repeat split; auto with arith|].
  destruct (ConfigureApplicationEnvironment_calls env info db w1) as [Hc Hn].
  apply configuring_only in Hc as [Hq _].
  destruct (ConfigureApplicationEnvironment env info db w1) as [[[e|] w2] t2];
    cbn [trace snd] in Hq, Hn.
  - change (CGetSuperUserDB i :: t2) with ([CGetSuperUserDB i] ++ t2)%list.
    cbn [trace snd]. rewrite existsb_app, invocations_app, Hq, Hn.
    cbn. repeat split; auto with arith.
  - destruct (ConfigureReplica_calls env info db w2) as [Hr Hone].
    apply configuring_only in Hr as [Hrq _].
    destruct (Z.geb_spec v 12) as [Hge|Hlt]; cbn [trace snd];
      change (CGetSuperUserDB i :: ?t) with ([CGetSuperUserDB i] ++ t)%list;
      rewrite ?existsb_app, ?invocations_app, ?Hq, ?Hn, ?Hrq, ?Hone; cbn;
      repeat split; auto with arith; lia.
Qed.

(** [VerifyConfiguration] asks whether files exist, and does nothing
    else. *)
Lemma VerifyConfiguration_queries_only (info : InitInfo) (w : W) :
  forallb isFileExists (trace (VerifyConfiguration env info w)) = true.
Proof.
  unfold VerifyConfiguration, FileExists, bind, call, ret.
  do 3 (answer; cbn [negb is_nil]; try reflexivity;
        answer; cbn [negb is_nil]; try reflexivity).
  destruct (nonempty (HBARulesFile info)), (nonempty (PostgreSQLConfigFile info));
    answers; reflexivity.
Qed.

(** [CreateDataDirectory] opens with its log line and the run of
    [initdb]. *)
Lemma CreateDataDirectory_opens (info : InitInfo) (w : W) :
  exists rest,
    trace (CreateDataDirectory env info w) =
    CLogInfo "Creating new data directory" [("pgdata", PgData info)]
    :: CCombinedOutput "initdb" (initdbOptions info) :: rest.
Proof.
  unfold CreateDataDirectory.
  rewrite bind_trace. cbv beta. rewrite bind_trace.
  unfold LogInfo, emit, CombinedOutput, call.
  cbn [trace result world fst snd app].
  destruct (exec_CombinedOutput env "initdb" (initdbOptions info) w) as [[out err] w1].
  cbn [trace result world fst snd app]. eauto.
Qed.

Lemma Bootstrap_trace (info : InitInfo) (w : W) :
  exists rest,
    trace (Bootstrap env info w) = (trace (CreateDataDirectory env info w) ++ rest)%list /\
    existsb isFileExists rest = false.
Proof.
  rewrite Bootstrap_run.
  destruct (CreateDataDirectory env info w) as [[[e|] w1] t1]; cbn [trace snd].
  { exists []. now rewrite app_nil_r. }
  destruct (postgres_GetMajorVersion env (PgData info) w1) as [[v [e|]] w2];
    [eexists; split; [reflexivity|reflexivity]|].
  destruct (instance_Startup env (GetInstance info) w2) as [[e|] w3];
    [eexists; split; [reflexivity|reflexivity]|].
  eexists; split; [reflexivity|].
  destruct (BootstrapInner_calls info (GetInstance info) v w3) as (Hq & _).
  cbn [existsb isFileExists orb]. now rewrite existsb_app, Hq.
Qed.

(** C2, as amended.  [Bootstrap] does not validate: on every request its
    first stage is [CreateDataDirectory], whose log line and run of
    [initdb] open the trace, and it never asks whether a file exists;
    [VerifyConfiguration] is a separate operation, which only asks whether
    files exist and changes nothing.  Keeping a rejected request from the
    provisioner is left to the caller of both. *)
Theorem Bootstrap_provisions_first (info : InitInfo) (w : W) :
  (exists rest,
      trace (Bootstrap env info w) =
      CLogInfo "Creating new data directory" [("pgdata", PgData info)]
      :: CCombinedOutput "initdb"
           ["--username"; "postgres"; "--pwfile"; PasswordFile info; "-D"; PgData info]
      :: rest) /\
  existsb isFileExists (trace (Bootstrap env info w)) = false /\
  forallb isFileExists (trace (VerifyConfiguration env info w)) = true /\
  existsb isMutation (trace (VerifyConfiguration env info w)) = false.
Proof.
  destruct (Bootstrap_trace info w) as (rest & Ht & Hq).
  destruct (CreateDataDirectory_opens info w) as (rest' & Ho).
  pose proof (CreateDataDirectory_provisioning env info w) as Hp.
  apply provisioning_only in Hp as (Hpq & _).
  pose proof (VerifyConfiguration_queries_only info w) as Hv.
  repeat split.
  - exists (rest' ++ rest)%list. now rewrite Ht, Ho.
  - now rewrite Ht, existsb_app, Hpq, Hq.
  - exact Hv.
  - induction (trace (VerifyConfiguration env info w)) as [|c t IH]; [reflexivity|].
    cbn [forallb] in Hv. apply andb_true_iff in Hv as [Hc Hv].
    destruct c; try discriminate Hc. cbn. auto.
Qed.

(** C8, as amended.  When the data directory has been created and the
    detection of the major version fails, [Bootstrap] goes no further:
    after the calls of [CreateDataDirectory] it makes the version query
    and no other call, and leaves the world as that query left it; it
    does not start the transient instance and issues no statement, so
    the application environment and the replica are both left
    unconfigured. *)
Theorem Bootstrap_stops_without_version
    (info : InitInfo) (w w1 w2 : W) (t1 : list (Call DB)) (v : Z) (e : error_value) :
  CreateDataDirectory env info w = (None, w1, t1) ->
  postgres_GetMajorVersion env (PgData info) w1 = ((v, Some e), w2) ->
  trace (Bootstrap env info w) = (t1 ++ [CGetMajorVersion (PgData info)])%list /\
  world (Bootstrap env info w) = w2 /\
  existsb isStartup (trace (Bootstrap env info w)) = false /\
  statements (trace (Bootstrap env info w)) = [].
Proof.
  intros Hcreate Hversion.
  pose proof (CreateDataDirectory_provisioning env info w) as Hp.
  rewrite Hcreate in Hp. apply provisioning_only in Hp as (_ & Hs & Hst & _).
  rewrite Bootstrap_run, Hcreate, Hversion. cbn [trace world fst snd] in *.
  rewrite existsb_app, statements_app, Hs, Hst. now cbn.
Qed.

(** C6, as amended.  When the data directory is created and the major
    version is detected, [ConfigureReplica] is never invoked if the
    version is below 12; if it is 12 or more, [ConfigureReplica] is invoked
    exactly once provided the transient instance starts, the superuser
    handle is obtained and the application environment is configured
    without error: its calls stand once in the trace, between those of
    [ConfigureApplicationEnvironment] and the shutdown. *)
Theorem Bootstrap_ConfigureReplica_by_version
    (info : InitInfo) (w w1 w2 : W) (t1 : list (Call DB)) (v : Z) :
  CreateDataDirectory env info w = (None, w1, t1) ->
  postgres_GetMajorVersion env (PgData info) w1 = ((v, None), w2) ->
  ((v < 12)%Z -> ConfigureReplicaInvocations (trace (Bootstrap env info w)) = 0) /\
  ((12 <= v)%Z ->
   forall w3 w4 w5 db t5,
     instance_Startup env (GetInstance info) w2 = (None, w3) ->
     instance_GetSuperUserDB env (GetInstance info) w3 = ((db, None), w4) ->
     ConfigureApplicationEnvironment env info db w4 = (None, w5, t5) ->
     trace (Bootstrap env info w) =
     (t1 ++ CGetMajorVersion (PgData info) :: CStartup (GetInstance info)
         :: CGetSuperUserDB (GetInstance info)
         :: t5 ++ trace (ConfigureReplica env info db w5)
         ++ [CShutdown (GetInstance info)])%list /\
     ConfigureReplicaInvocations (trace (Bootstrap env info w)) = 1).
Proof.
  intros Hcreate Hversion.
  pose proof (CreateDataDirectory_provisioning env info w) as Hp.
  rewrite Hcreate in Hp. apply provisioning_only in Hp as (_ & _ & _ & Hn1).
  cbn [trace snd] in Hn1.
  rewrite Bootstrap_run, Hcreate, Hversion. split.
  - intros Hlt.
    destruct (instance_Startup env (GetInstance info) w2) as [[e|] w3]; cbn [trace snd].
    + now rewrite invocations_app, Hn1.
    + destruct (BootstrapInner_calls info (GetInstance info) v w3) as (_ & _ & Hzero).
      change (CGetMajorVersion (PgData info) :: CStartup (GetInstance info) :: ?t)
        with ([CGetMajorVersion (PgData info); CStartup (GetInstance info)] ++ t)%list.
      rewrite !invocations_app, Hn1, (Hzero Hlt). reflexivity.
  - intros Hge w3 w4 w5 db t5 Hstart Hdb Happ.
    rewrite Hstart, BootstrapInner_run, Hdb, Happ.
    destruct (ConfigureApplicationEnvironment_calls env info db w4) as [_ Hn5].
    rewrite Happ in Hn5. cbn [trace snd] in Hn5.
    destruct (ConfigureReplica_calls env info db w5) as [_ Hone].
    destruct (Z.geb_spec v 12) as [_|Hlt]; [|lia]. cbn [trace snd app].
    split; [now rewrite <- app_assoc|].
    change (CGetMajorVersion (PgData info) :: CStartup (GetInstance info)
              :: CGetSuperUserDB (GetInstance info) :: ?t)
      with ([CGetMajorVersion (PgData info); CStartup (GetInstance info);
             CGetSuperUserDB (GetInstance info)] ++ t)%list.
    rewrite !invocations_app, Hn1, Hn5, Hone. reflexivity.
Qed.

(** C1, at its failing inputs.  With the data directory created, the
    version detected and the transient instance started, [Bootstrap]
    returns nil both when the superuser handle cannot be obtained and
    when [ConfigureApplicationEnvironment] fails: the error of either
    stage is dropped. *)
Theorem Bootstrap_drops_stage_errors
    (info : InitInfo) (w w1 w2 w3 : W) (t1 : list (Call DB)) (v : Z) :
  CreateDataDirectory env info w = (None, w1, t1) ->
  postgres_GetMajorVersion env (PgData info) w1 = ((v, None), w2) ->
  instance_Startup env (GetInstance info) w2 = (None, w3) ->
  (forall db e w4,
      instance_GetSuperUserDB env (GetInstance info) w3 = ((db, Some e), w4) ->
      result (Bootstrap env info w) = None) /\
  (forall db e w4 w5 t5,
      instance_GetSuperUserDB env (GetInstance info) w3 = ((db, None), w4) ->
      ConfigureApplicationEnvironment env info db w4 = (Some e, w5, t5) ->
      result (Bootstrap env info w) = None).
Proof.
  intros Hcreate Hversion Hstart.
  rewrite Bootstrap_run, Hcreate, Hversion, Hstart, BootstrapInner_run.
  split.
  - intros db e w4 Hdb. now rewrite Hdb.
  - intros db e w4 w5 t5 Hdb Happ. now rewrite Hdb, Happ.
Qed.

End Orchestrator.

(** C2, as stated, fails: the target data directory is already there, so
    [VerifyConfiguration] rejects the request, and [Bootstrap] on that
    request runs [initdb] all the same. *)
Lemma Bootstrap_provisions_rejected_request :
  result (Postgres.VerifyConfiguration (Scripted.env Scripted.occupied) Scripted.request 0)
  = Some (Errorf "PGData directories already exist")
  /\ existsb Trace.isInitdb
       (trace (Postgres.Bootstrap (Scripted.env Scripted.occupied) Scripted.request 0))
     = true.
Proof. split; reflexivity. Qed.

Lemma Bootstrap_stops_without_version_witness :
  List.length
    (trace (Postgres.Bootstrap (Scripted.env Scripted.versionUnreadable)
                               Scripted.request 0)) = 6
  /\ world (Postgres.Bootstrap (Scripted.env Scripted.versionUnreadable)
                               Scripted.request 0) = 5
  /\ existsb Trace.isStartup
       (trace (Postgres.Bootstrap (Scripted.env Scripted.versionUnreadable)
                                  Scripted.request 0))
     = false.
Proof.
  pose proof (Bootstrap_stops_without_version
                (Scripted.env Scripted.versionUnreadable) Scripted.request
                0 4 5 _ 0%Z (Opaque "PG_VERSION unreadable") eq_refl eq_refl)
    as (Hrun & Hworld & Hstart & _).
  split; [now rewrite Hrun | split; [exact Hworld | exact Hstart]].
Defined.

(** C8, as stated, fails: the version cannot be read, and the transient
    instance is not started and no statement is issued, although the data
    directory was created. *)
Lemma Bootstrap_no_instance_without_version :
  result (Postgres.CreateDataDirectory
            (Scripted.env Scripted.versionUnreadable) Scripted.request 0) = None
  /\ fst (Postgres.postgres_GetMajorVersion
            (Scripted.env Scripted.versionUnreadable)
            (Postgres.PgData Scripted.request) 4)
     = (0%Z, Some (Opaque "PG_VERSION unreadable"))
  /\ existsb Trace.isStartup
       (trace (Postgres.Bootstrap (Scripted.env Scripted.versionUnreadable)
                                  Scripted.request 0))
     = false
  /\ Trace.statements
       (trace (Postgres.Bootstrap (Scripted.env Scripted.versionUnreadable)
                                  Scripted.request 0))
     = [].
Proof. repeat split; reflexivity. Qed.

Lemma Bootstrap_ConfigureReplica_by_version_witness :
  Trace.ConfigureReplicaInvocations
    (trace (Postgres.Bootstrap (Scripted.env Scripted.script) Scripted.request 0)) = 1
  /\ Trace.ConfigureReplicaInvocations
       (trace (Postgres.Bootstrap
                 (Scripted.env (Scripted.onVersion 11 Scripted.script))
                 Scripted.request 0)) = 0.
Proof.
  split.
  - refine (proj2 (proj2 (Bootstrap_ConfigureReplica_by_version
                            (Scripted.env Scripted.script) Scripted.request
                            0 4 5 _ 13%Z eq_refl eq_refl)
                         _ 6 7 12 "postgres@127.0.0.1" _ eq_refl eq_refl eq_refl)).
    lia.
  - refine (proj1 (Bootstrap_ConfigureReplica_by_version
                     (Scripted.env (Scripted.onVersion 11 Scripted.script))
                     Scripted.request 0 4 5 _ 11%Z eq_refl eq_refl) _).
    lia.
Defined.

(** C6, as stated, fails: the version detected is 13, the transient
    instance is started and the superuser handle obtained, [CREATE USER]
    is refused, and [ConfigureReplica] is not invoked. *)
Lemma Bootstrap_ConfigureReplica_skipped_on_13 :
  fst (Postgres.postgres_GetMajorVersion
         (Scripted.env Scripted.createUserRefused)
         (Postgres.PgData Scripted.request) 4) = (13%Z, None)
  /\ existsb Trace.isStartup
       (trace (Postgres.Bootstrap (Scripted.env Scripted.createUserRefused)
                                  Scripted.request 0))
     = true
  /\ existsb Scripted.isSuperUserDB
       (trace (Postgres.Bootstrap (Scripted.env Scripted.createUserRefused)
                                  Scripted.request 0))
     = true
  /\ Trace.ConfigureReplicaInvocations
       (trace (Postgres.Bootstrap (Scripted.env Scripted.createUserRefused)
                                  Scripted.request 0))
     = 0.
Proof. repeat split; reflexivity. Qed.

Lemma Bootstrap_drops_stage_errors_witness :
  fst (Postgres.instance_GetSuperUserDB
         (Scripted.env Scripted.superuserRefused)
         (Postgres.GetInstance Scripted.request) 6)
  = ("", Some (Opaque "connection refused"))
  /\ result (Postgres.Bootstrap (Scripted.env Scripted.superuserRefused)
                                Scripted.request 0) = None
  /\ result (Postgres.ConfigureApplicationEnvironment
               (Scripted.env Scripted.createUserRefused) Scripted.request
               "postgres@127.0.0.1" 7)
     = Some (Opaque "pq: statement failed")
  /\ result (Postgres.Bootstrap (Scripted.env Scripted.createUserRefused)
                                Scripted.request 0) = None.
Proof.
  split; [reflexivity|]. split; [|split; [reflexivity|]].
  - exact (proj1 (Bootstrap_drops_stage_errors
                    (Scripted.env Scripted.superuserRefused) Scripted.request
                    0 4 5 6 _ 13%Z eq_refl eq_refl eq_refl)
                 "" (Opaque "connection refused") 7 eq_refl).
  - exact (proj2 (Bootstrap_drops_stage_errors
                    (Scripted.env Scripted.createUserRefused) Scripted.request
                    0 4 5 6 _ 13%Z eq_refl eq_refl eq_refl)
                 "postgres@127.0.0.1" (Opaque "pq: statement failed") 7 8 _
                 eq_refl eq_refl).
Defined.

(** End to end: valid password files, no target directory, user [app],
    database [appdb], engine version 13.  [Bootstrap] succeeds, the
    stanza is appended, and the six statements are issued in order on the
    superuser handle. *)
Example Bootstrap_end_to_end :
  result (Postgres.Bootstrap (Scripted.env Scripted.script) Scripted.request 0) = None
  /\ existsb Trace.isStanzaAppend
       (trace (Postgres.Bootstrap (Scripted.env Scripted.script) Scripted.request 0))
     = true
  /\ Trace.statements
       (trace (Postgres.Bootstrap (Scripted.env Scripted.script) Scripted.request 0))
     = [ "CREATE USER " ++ Scripted.QuoteIdentifier "app";
         "ALTER USER " ++ Scripted.QuoteIdentifier "app" ++ " PASSWORD 'it''s a secret'";
         "CREATE DATABASE " ++ Scripted.QuoteIdentifier "appdb"
           ++ " OWNER " ++ Scripted.QuoteIdentifier "app";
         "ALTER SYSTEM SET cluster_name TO " ++ Scripted.QuoteIdentifier "cluster-example";
         "ALTER SYSTEM SET primary_conninfo TO "
           ++ "'host=cluster-example-rw user=postgres dbname=postgres'";
         "ALTER SYSTEM SET recovery_target_timeline TO 'latest'" ].
Proof. repeat split; reflexivity. Qed.

(** ** The restore command *)

Section RestoreCommand.
Import Restore.
Context {W : Type} (env : Env W).

(** The classification is what [errors.As] and [IsRetriable] say. *)
Lemma Classify_Retriable (e : error_value) :
  Classify e = Retriable <->
  exists barmanError,
    As_CloudRestoreError (Some e) = Some barmanError /\ IsRetriable barmanError = true.
Proof.
  unfold Classify. cbn [As_CloudRestoreError].
  destruct (As_CloudRestoreError_value e) as [[retriable]|]; cbn [IsRetriable].
  - destruct retriable; split; intros H; try discriminate H; eauto.
    destruct H as (b & Hb & Hr). injection Hb as <-. discriminate Hr.
  - split; [discriminate|]. intros (b & Hb & _). discriminate Hb.
Qed.

(** An error wrapped any number of times classifies as its cause. *)
Lemma Classify_Wrap (e : error_value) (msg : string) :
  Classify (Wrap e msg) = Classify e.
Proof. reflexivity. Qed.

(** C9, as amended.  When the target is accepted and the restore fails
    with [e], the command returns [e] itself.  If [e] is, along its
    chain, a [CloudRestoreError] that says it is retriable, the command
    logs, calls [RemoveDirectory] once on the data directory, leaves the
    world as that call left it, and logs a cleanup failure only if the
    removal failed with an error other than a missing directory; when
    the removal answers nil or a missing directory, the data directory is
    absent afterwards ([present] observes the directories of a world,
    and [RemoveDirectory] is taken to leave a directory absent whenever
    it answers so).  Otherwise (a [CloudRestoreError] that is not
    retriable, or no [CloudRestoreError] at all) it makes no call after
    the log of the restore failure and leaves the world as the restore
    left it. *)
Theorem restoreSubCommand_cleanup
    (present : W -> string -> bool) (info : InitInfo) (w w1 w2 : W) (e : error_value) :
  (forall dir w0,
      is_nil (fst (fileutils_RemoveDirectory env dir w0))
      || os_IsNotExist env (fst (fileutils_RemoveDirectory env dir w0)) = true ->
      present (snd (fileutils_RemoveDirectory env dir w0)) dir = false) ->
  info_CheckTargetDataDirectory env info w = (None, w1) ->
  info_Restore env info w1 = (Some e, w2) ->
  restoreSubCommand env info w =
  match Classify e with
  | Retriable =>
      let removal := fileutils_RemoveDirectory env (PgData info) w2 in
      (Some e, snd removal,
       ([CCheckTargetDataDirectory info; CRestore info;
         CLogError (Some e) "Error while restoring a backup" [];
         CLogInfo "Cleaning up data directory" [("directory", PgData info)];
         CRemoveDirectory (PgData info)]
        ++ (if is_nil (fst removal) || os_IsNotExist env (fst removal) then []
            else [CLogError (fst removal) "error occurred cleaning up data directory"
                            [("directory", PgData info)]]))%list)
  | Terminal | Unclassified =>
      (Some e, w2,
       [CCheckTargetDataDirectory info; CRestore info;
        CLogError (Some e) "Error while restoring a backup" []])
  end /\
  (Classify e = Retriable <->
   exists barmanError,
     As_CloudRestoreError (Some e) = Some barmanError /\ IsRetriable barmanError = true) /\
  (Classify e = Retriable ->
   is_nil (fst (fileutils_RemoveDirectory env (PgData info) w2))
   || os_IsNotExist env (fst (fileutils_RemoveDirectory env (PgData info) w2)) = true ->
   present (world (restoreSubCommand env info w)) (PgData info) = false) /\
  (Classify e <> Retriable ->
   forall dir, present (world (restoreSubCommand env info w)) dir = present w2 dir).
Proof.
  intros Hcontract Hcheck Hrestore.
  assert (Hrun :
            restoreSubCommand env info w =
            match Classify e with
            | Retriable =>
                let removal := fileutils_RemoveDirectory env (PgData info) w2 in
                (Some e, snd removal,
                 ([CCheckTargetDataDirectory info; CRestore info;
                   CLogError (Some e) "Error while restoring a backup" [];
                   CLogInfo "Cleaning up data directory" [("directory", PgData info)];
                   CRemoveDirectory (PgData info)]
                  ++ (if is_nil (fst removal) || os_IsNotExist env (fst removal) then []
                      else [CLogError (fst removal)
                                      "error occurred cleaning up data directory"
                                      [("directory", PgData info)]]))%list)
            | Terminal | Unclassified =>
                (Some e, w2,
                 [CCheckTargetDataDirectory info; CRestore info;
                  CLogError (Some e) "Error while restoring a backup" []])
            end).
  { unfold restoreSubCommand, cleanupDataDirectoryIfNeeded, Classify,
      CheckTargetDataDirectory, RestoreBackup, RemoveDirectory, LogError, LogInfo,
      bind, call, emit, ret.
    rewrite Hcheck. cbn [negb is_nil]. rewrite Hrestore.
    cbn [negb is_nil As_CloudRestoreError].
    destruct (As_CloudRestoreError_value e) as [[[|]]|]; cbn [IsRetriable negb];
      try reflexivity.
    cbv zeta.
    destruct (fileutils_RemoveDirectory env (PgData info) w2) as [[err|] w3];
      cbn [is_nil negb andb orb fst snd]; try reflexivity.
    destruct (os_IsNotExist env (Some err)); reflexivity. }
  split; [exact Hrun|]. split; [apply Classify_Retriable|]. split.
  - intros Hretriable Hgone. rewrite Hrun, Hretriable. cbn [world fst snd].
    now apply Hcontract.
  - intros Hother dir. rewrite Hrun.
    destruct (Classify e); [contradiction|reflexivity|reflexivity].
Qed.

End RestoreCommand.

(** The removal of the scripted disk leaves a directory absent whenever
    it answers nil or a missing directory. *)
Lemma Disk_removal_contract (s : Disk.Script) (dir : string) (w0 : Disk.World) :
  is_nil (fst (Restore.fileutils_RemoveDirectory (Disk.env s) dir w0))
  || Restore.os_IsNotExist (Disk.env s)
       (fst (Restore.fileutils_RemoveDirectory (Disk.env s) dir w0)) = true ->
  Disk.dirExists (snd (Restore.fileutils_RemoveDirectory (Disk.env s) dir w0)) dir = false.
Proof.
  cbn [Disk.env Restore.fileutils_RemoveDirectory Restore.os_IsNotExist].
  destruct (Disk.denied s); [discriminate|].
  destruct (Disk.dirExists w0 dir) eqn:Hthere; cbn [fst snd]; intros _; [|exact Hthere].
  clear Hthere. unfold Disk.dirExists, Disk.delete.
  induction w0 as [|d w0 IH]; [reflexivity|].
  cbn [filter]. destruct (String.eqb dir d) eqn:Hd; cbn [negb]; [exact IH|].
  cbn [existsb]. now rewrite Hd, IH.
Qed.

Lemma restoreSubCommand_cleanup_witness :
  result (Restore.restoreSubCommand (Disk.env Disk.removable)
                                    ScriptedRestore.request [])
  = Some Disk.transferInterrupted
  /\
  Disk.dirExists
    (world (Restore.restoreSubCommand (Disk.env Disk.removable)
                                      ScriptedRestore.request []))
    "/var/lib/postgresql/data/pgdata" = false.
Proof.
  pose proof (restoreSubCommand_cleanup
                (Disk.env Disk.removable) Disk.dirExists ScriptedRestore.request
                [] [] ["/var/lib/postgresql/data/pgdata"] Disk.transferInterrupted
                (Disk_removal_contract Disk.removable) eq_refl eq_refl)
    as (Hrun & _ & Hgone & _).
  split; [now rewrite Hrun | exact (Hgone eq_refl eq_refl)].
Defined.

(** C9, as stated, fails: the restore error is retriable, the removal of
    the data directory is refused, the command only logs that, and the
    directory the restore filled is still there. *)
Lemma restoreSubCommand_directory_remains :
  Restore.Classify Disk.transferInterrupted = Restore.Retriable
  /\ result (Restore.restoreSubCommand (Disk.env Disk.readOnly)
                                       ScriptedRestore.request [])
     = Some Disk.transferInterrupted
  /\ existsb Restore.isCleanupFailureLog
       (trace (Restore.restoreSubCommand (Disk.env Disk.readOnly)
                                         ScriptedRestore.request []))
     = true
  /\ Disk.dirExists
       (world (Restore.restoreSubCommand (Disk.env Disk.readOnly)
                                         ScriptedRestore.request []))
       "/var/lib/postgresql/data/pgdata" = true.
Proof. repeat split; reflexivity. Qed.

(** * Further properties *)

(** ** The provisioner, when a step fails *)

Section ProvisionerFailures.
Import Postgres Trace Shape.
Context {W DB : Type} (env : Env W DB).

Ltac provision :=
  unfold CreateDataDirectory, LogInfo, CombinedOutput, AppendFile, AppendStringToFile,
    bind, call, emit, ret.

Ltac appended :=
  match goal with
  | |- context [fileutils_AppendFile env ?t ?s ?w0] =>
      destruct (fileutils_AppendFile env t s w0) as [[?|] ?]
  | |- context [fileutils_AppendStringToFile env ?t ?s ?w0] =>
      destruct (fileutils_AppendStringToFile env t s w0) as [[?|] ?]
  end; cbn [negb is_nil option_map].

(** X1. When [initdb] fails, [CreateDataDirectory] logs its output and
    returns its error wrapped with [Error while creating the PostgreSQL
    instance]; nothing is appended to any file. *)
Theorem CreateDataDirectory_initdb_failure
    (info : InitInfo) (w w1 : W) (out : string) (e : error_value) :
  exec_CombinedOutput env "initdb" (initdbOptions info) w = ((out, Some e), w1) ->
  CreateDataDirectory env info w =
  (Some (Wrap e "Error while creating the PostgreSQL instance"), w1,
   [CLogInfo "Creating new data directory" [("pgdata", PgData info)];
    CCombinedOutput "initdb" (initdbOptions info);
    CLogInfo "initdb output" [("output", out)]]).
Proof.
  intros Hinitdb. provision. rewrite Hinitdb. reflexivity.
Qed.

(** X2. After a successful [initdb], a failing append of the access
    rules ends [CreateDataDirectory] with that error wrapped with the
    [pg_hba.conf] message, before [postgresql.conf] is touched; a failing
    append of the extra configuration ends it with that error wrapped
    with the [postgresql.conf] message, before the stanza is appended. *)
Theorem CreateDataDirectory_append_failure
    (info : InitInfo) (w w1 : W) (out : string) :
  exec_CombinedOutput env "initdb" (initdbOptions info) w = ((out, None), w1) ->
  (forall e w2,
      nonempty (HBARulesFile info) = true ->
      fileutils_AppendFile env (path_Join env (PgData info) "pg_hba.conf")
                           (HBARulesFile info) w1 = (Some e, w2) ->
      CreateDataDirectory env info w =
      (Some (Wrap e "appending to pg_hba.conf file resulted in an error"), w2,
       [CLogInfo "Creating new data directory" [("pgdata", PgData info)];
        CCombinedOutput "initdb" (initdbOptions info);
        CAppendFile (path_Join env (PgData info) "pg_hba.conf") (HBARulesFile info)])) /\
  (forall e w2 w3,
      (if nonempty (HBARulesFile info)
       then fileutils_AppendFile env (path_Join env (PgData info) "pg_hba.conf")
                                 (HBARulesFile info) w1 = (None, w2)
       else w2 = w1) ->
      nonempty (PostgreSQLConfigFile info) = true ->
      fileutils_AppendFile env (path_Join env (PgData info) "postgresql.conf")
                           (PostgreSQLConfigFile info) w2 = (Some e, w3) ->
      CreateDataDirectory env info w =
      (Some (Wrap e "appending to postgresql.conf file resulted in an error"), w3,
       ([CLogInfo "Creating new data directory" [("pgdata", PgData info)];
         CCombinedOutput "initdb" (initdbOptions info)]
        ++ (if nonempty (HBARulesFile info)
            then [CAppendFile (path_Join env (PgData info) "pg_hba.conf")
                              (HBARulesFile info)]
            else [])
        ++ [CAppendFile (path_Join env (PgData info) "postgresql.conf")
                        (PostgreSQLConfigFile info)])%list)).
Proof.
  intros Hinitdb. split.
  - intros e w2 Hset Happend. provision.
    rewrite Hinitdb. cbn [negb is_nil]. rewrite Hset, Happend. reflexivity.
  - intros e w2 w3 Hhba Hset Happend. provision.
    rewrite Hinitdb. cbn [negb is_nil]. rewrite Hset.
    destruct (nonempty (HBARulesFile info)).
    + rewrite Hhba. cbn [negb is_nil option_map]. rewrite Happend. reflexivity.
    + subst w2. cbn [negb is_nil option_map]. rewrite Happend. reflexivity.
Qed.

(** X3. [CreateDataDirectory] never returns the error of a collaborator
    bare: an error it returns is a collaborator's error wrapped with one
    of its three messages. *)
Theorem CreateDataDirectory_errors_wrapped
    (info : InitInfo) (w : W) (e : error_value) :
  result (CreateDataDirectory env info w) = Some e ->
  exists cause msg, e = Wrap cause msg /\ In msg provisioningMessages.
Proof.
  unfold provisioningMessages. provision.
  destruct (exec_CombinedOutput env "initdb" (initdbOptions info) w) as [[out [e0|]] w1];
    cbn [negb is_nil].
  { cbn. intros [= <-]. eauto 6. }
  destruct (nonempty (HBARulesFile info)), (nonempty (PostgreSQLConfigFile info));
    cbn [negb is_nil option_map]; repeat appended; cbn;
    (intros [= <-] || discriminate); eauto 8.
Qed.

(** X4. If [CreateDataDirectory] returns nil, the last call it made is
    the append of the archiving stanza to [postgresql.conf], and that
    append succeeded. *)
Theorem CreateDataDirectory_success_stanza_last (info : InitInfo) (w : W) :
  result (CreateDataDirectory env info w) = None ->
  exists calls w',
    trace (CreateDataDirectory env info w) =
    (calls ++ [CAppendStringToFile (path_Join env (PgData info) "postgresql.conf")
                                   archiveStanza])%list /\
    fileutils_AppendStringToFile env (path_Join env (PgData info) "postgresql.conf")
                                 archiveStanza w' =
    (None, world (CreateDataDirectory env info w)).
Proof.
  provision.
  destruct (exec_CombinedOutput env "initdb" (initdbOptions info) w) as [[out [e0|]] w1];
    cbn [negb is_nil]; [discriminate|].
  destruct (nonempty (HBARulesFile info)), (nonempty (PostgreSQLConfigFile info));
    cbn [negb is_nil option_map];
    repeat (match goal with
            | |- context [fileutils_AppendFile env ?t ?s ?w0] =>
                destruct (fileutils_AppendFile env t s w0) as [[?|] ?]
            end; cbn [negb is_nil option_map]; try discriminate);
    match goal with
    | |- context [fileutils_AppendStringToFile env ?t ?s ?w0] =>
        destruct (fileutils_AppendStringToFile env t s w0) as [[?|] ?] eqn:Hstanza
    end; cbn [negb is_nil option_map]; try discriminate; intros _;
    cbn [trace world fst snd app];
    match goal with
    | |- exists calls w', ?a :: ?b :: ?c :: ?d :: [?x] = _ /\ _ =>
        exists [a; b; c; d]
    | |- exists calls w', ?a :: ?b :: ?c :: [?x] = _ /\ _ => exists [a; b; c]
    | |- exists calls w', ?a :: ?b :: [?x] = _ /\ _ => exists [a; b]
    end; eexists; (split; [reflexivity | eassumption]).
Qed.

(** X5. In every run, [CreateDataDirectory] writes to two files only,
    [pg_hba.conf] and [postgresql.conf] of the new data directory: the
    first receives the access-rules file and only when one is set, the
    second the extra configuration file, only when one is set, and the
    stanza; the only program run is [initdb], on the options of the
    request. *)
Theorem CreateDataDirectory_writes_inside (info : InitInfo) (w : W) :
  Forall (provisions env info) (trace (CreateDataDirectory env info w)).
Proof.
  provision.
  destruct (exec_CombinedOutput env "initdb" (initdbOptions info) w) as [[out [e0|]] w1];
    cbn [negb is_nil]; [repeat apply Forall_cons; try apply Forall_nil; now cbn|].
  destruct (nonempty (HBARulesFile info)) eqn:Hhba,
           (nonempty (PostgreSQLConfigFile info)) eqn:Hconf;
    cbn [negb is_nil option_map]; repeat appended; cbn [trace snd app];
    repeat apply Forall_cons; try apply Forall_nil; cbn [provisions]; auto 7.
Qed.

End ProvisionerFailures.

(** ** The validator, seen from its caller *)

Section ValidatorAnswers.
Import Postgres Trace Shape.
Context {W DB : Type} (env : Env W DB).

Ltac validate :=
  unfold VerifyConfiguration, FileExists, bind, call, ret.

(** X6. On a file system whose answers do not change while it is asked
    ([present] tells which paths exist, and no query fails),
    [VerifyConfiguration] returns nil exactly when both password files
    exist, the data directory does not, each optional file is unset or
    exists, and the application user and database names are not empty. *)
Theorem VerifyConfiguration_accepts_iff
    (present : string -> bool) (info : InitInfo) (w : W) :
  (forall p w0, fst (fileutils_FileExists env p w0) = (present p, None)) ->
  result (VerifyConfiguration env info w) = None <->
  present (PasswordFile info) = true /\
  present (ApplicationPasswordFile info) = true /\
  present (PgData info) = false /\
  (HBARulesFile info = "" \/ present (HBARulesFile info) = true) /\
  (PostgreSQLConfigFile info = "" \/ present (PostgreSQLConfigFile info) = true) /\
  ApplicationUser info <> "" /\
  ApplicationDatabase info <> "".
Proof.
  intros Hfs.
  destruct info as [pgdata pwfile appdb appuser apppwfile hba conf parent cluster].
  validate.
  cbn [PgData PasswordFile ApplicationDatabase ApplicationUser
       ApplicationPasswordFile HBARulesFile PostgreSQLConfigFile].
  assert (Hq : forall p w0,
             exists w1, fileutils_FileExists env p w0 = ((present p, None), w1)).
  { intros p w0. specialize (Hfs p w0).
    destruct (fileutils_FileExists env p w0) as [a w1]. cbn in Hfs. subst a. eauto. }
  destruct (Hq pwfile w) as [w1 ->]. cbn [negb is_nil].
  destruct (present pwfile); cbn [negb]; [|cbn; intuition discriminate].
  destruct (Hq apppwfile w1) as [w2 ->]. cbn [negb is_nil].
  destruct (present apppwfile); cbn [negb]; [|cbn; intuition discriminate].
  destruct (Hq pgdata w2) as [w3 ->]. cbn [negb is_nil].
  destruct (present pgdata); cbn [negb]; [cbn; intuition discriminate|].
  destruct hba as [|h hba]; cbn [nonempty String.length Nat.eqb negb is_nil].
  - destruct conf as [|c conf]; cbn [nonempty String.length Nat.eqb negb is_nil].
    + destruct appuser, appdb; cbn; intuition congruence.
    + destruct (Hq (String c conf) w3) as [w4 ->]. cbn [negb is_nil].
      destruct (present (String c conf)); cbn [negb is_nil];
        destruct appuser, appdb; cbn; intuition congruence.
  - destruct (Hq (String h hba) w3) as [w4 ->]. cbn [negb is_nil].
    destruct (present (String h hba)); cbn [negb is_nil];
      [|cbn; intuition congruence].
    destruct conf as [|c conf]; cbn [nonempty String.length Nat.eqb negb is_nil].
    + destruct appuser, appdb; cbn; intuition congruence.
    + destruct (Hq (String c conf) w4) as [w5 ->]. cbn [negb is_nil].
      destruct (present (String c conf)); cbn [negb is_nil];
        destruct appuser, appdb; cbn; intuition congruence.
Qed.

Ltac upto n :=
  match goal with
  | Hn : forall full t r n, 1 <= n -> _ |- _ =>
      eapply (Hn _ _ _ n);
      [lia | reflexivity | first [cbn; discriminate | intros _; reflexivity]]
  end.

Ltac queried :=
  match goal with
  | |- context [fileutils_FileExists env ?p ?w0] =>
      let Hq := fresh "Hq" in
      destruct (fileutils_FileExists env p w0) as [[[|] [?|]] ?] eqn:Hq;
      cbn [negb is_nil]
  end.

(** X7. An error of [VerifyConfiguration] is one of the seven errors it
    makes itself, or the error of one of its existence queries, returned
    as it came. *)
Theorem VerifyConfiguration_errors (info : InitInfo) (w : W) (e : error_value) :
  result (VerifyConfiguration env info w) = Some e ->
  In e (validatorErrors info) \/
  exists p w0 found,
    In (CFileExists p) (validatorQueries (DB := DB) info) /\
    fst (fileutils_FileExists env p w0) = (found, Some e).
Proof.
  unfold validatorErrors, validatorQueries. validate.
  assert (Hreport : forall p w0 found w1,
             In (CFileExists p) (validatorQueries (DB := DB) info) ->
             fileutils_FileExists env p w0 = ((found, Some e), w1) ->
             exists p w0 found,
               In (CFileExists p) (validatorQueries (DB := DB) info) /\
               fst (fileutils_FileExists env p w0) = (found, Some e)).
  { intros p w0 found w1 Hin Hq. exists p, w0, found. now rewrite Hq. }
  unfold validatorQueries in Hreport.
  do 3 (queried; try (cbn; intros [= <-]; (left; cbn; tauto) ||
                        (right; eapply Hreport; [|eassumption]; cbn; tauto))).
  destruct (nonempty (HBARulesFile info)) eqn:Hhba,
           (nonempty (PostgreSQLConfigFile info)) eqn:Hconf;
    cbn [negb is_nil];
    repeat (queried; try (cbn; intros [= <-]; (left; cbn; tauto) ||
                            (right; eapply Hreport; [|eassumption]; cbn; tauto)));
    destruct (String.length (ApplicationUser info) =? 0)%nat;
    try (cbn; intros [= <-]; left; cbn; tauto);
    destruct (String.length (ApplicationDatabase info) =? 0)%nat;
    cbn; (intros [= <-] || discriminate); left; cbn; tauto.
Qed.

(** X8. The calls of [VerifyConfiguration] are existence queries on the
    superuser password file, the application password file, the data
    directory, the access-rules file and the extra configuration file, in
    that order, an optional file being skipped when it is unset: the
    trace is the first [n] of them, with [n >= 1], and all of them when
    the result is nil. *)
Theorem VerifyConfiguration_queries (info : InitInfo) (w : W) :
  exists n,
    1 <= n /\
    trace (VerifyConfiguration env info w) = firstn n (validatorQueries info) /\
    (result (VerifyConfiguration env info w) = None ->
     trace (VerifyConfiguration env info w) = validatorQueries info).
Proof.
  unfold validatorQueries. validate.
  assert (Hn : forall (full t : list (Call DB)) (r : error) n,
             1 <= n -> t = firstn n full -> (r = None -> t = full) ->
             exists n, 1 <= n /\ t = firstn n full /\ (r = None -> t = full))
    by eauto.
  do 3 (queried; try solve [upto 1 | upto 2 | upto 3]).
  destruct (nonempty (HBARulesFile info)), (nonempty (PostgreSQLConfigFile info));
    cbn [negb is_nil];
    repeat (queried; try solve [upto 4 | upto 5]);
    destruct (String.length (ApplicationUser info) =? 0)%nat,
             (String.length (ApplicationDatabase info) =? 0)%nat;
    solve [upto 3 | upto 4 | upto 5].
Qed.

End ValidatorAnswers.

(** ** The orchestrator, stage by stage *)

Section OrchestratorStages.
Import Postgres Trace Shape.
Context {W DB : Type} (env : Env W DB).

(** X9. The function [Bootstrap] runs inside the transient instance
    returns no error but one of [ConfigureReplica]: if it returns [e],
    the version is 12 or more, the superuser handle was obtained and
    [ConfigureReplica] on that handle returned [e].  In particular it
    returns nil on every engine below 12. *)
Theorem BootstrapInner_only_replica_errors
    (info : InitInfo) (i : Instance) (v : Z) (w : W) (e : error_value) :
  result (BootstrapInner env info i v w) = Some e ->
  (12 <= v)%Z /\
  exists db w1 w2,
    instance_GetSuperUserDB env i w = ((db, None), w1) /\
    result (ConfigureReplica env info db w2) = Some e.
Proof.
  rewrite BootstrapInner_run.
  destruct (instance_GetSuperUserDB env i w) as [[db [e0|]] w1]; [discriminate|].
  destruct (ConfigureApplicationEnvironment env info db w1) as [[[e1|] w2] t2];
    [discriminate|].
  destruct (Z.geb_spec v 12) as [Hge|Hlt]; [|discriminate].
  cbn [result fst]. intros Hreplica. split; [exact Hge|].
  exists db, w1, w2. split; [reflexivity | exact Hreplica].
Qed.

(** The statements of [ConfigureApplicationEnvironment] are the first
    [n] of its four, and all four when it returns nil. *)
Lemma ConfigureApplicationEnvironment_prefix (info : InitInfo) (db : DB) (w : W) :
  exists password n,
    statements (trace (ConfigureApplicationEnvironment env info db w)) =
    firstn n [stmtCreateUser env info; stmtAlterUserPassword env info password;
              stmtCreateDatabase env info; stmtClusterName env info] /\
    (result (ConfigureApplicationEnvironment env info db w) = None -> n = 4).
Proof.
  unfold ConfigureApplicationEnvironment, Exec, ReadFile, bind, call, ret.
  destruct (sql_Exec env db (stmtCreateUser env info) w) as [[e1|] w1];
    cbn [negb is_nil]; [exists "", 1; split; [reflexivity | discriminate]|].
  destruct (fileutils_ReadFile env (ApplicationPasswordFile info) w1)
    as [[password [e2|]] w2];
    cbn [negb is_nil]; [exists "", 1; split; [reflexivity | discriminate]|].
  exists password.
  destruct (sql_Exec env db (stmtAlterUserPassword env info password) w2) as [[e3|] w3];
    cbn [negb is_nil]; [exists 2; split; [reflexivity | discriminate]|].
  destruct (sql_Exec env db (stmtCreateDatabase env info) w3) as [[e4|] w4];
    cbn [negb is_nil]; [exists 3; split; [reflexivity | discriminate]|].
  destruct (sql_Exec env db (stmtClusterName env info) w4) as [[e5|] w5];
    cbn [negb is_nil]; exists 4; split; reflexivity.
Qed.

(** X10. Whatever fails and wherever, the statements issued inside the
    transient instance are the first [n] of: [CREATE USER], [ALTER USER
    ... PASSWORD], [CREATE DATABASE], [ALTER SYSTEM SET cluster_name],
    then, on an engine of version 12 or more, [ALTER SYSTEM SET
    primary_conninfo] and [ALTER SYSTEM SET recovery_target_timeline]:
    no statement is skipped, repeated or issued out of order, and the
    replica statements follow only the four of the application
    environment. *)
Theorem BootstrapInner_statements_prefix
    (info : InitInfo) (i : Instance) (v : Z) (w : W) :
  exists password n,
    statements (trace (BootstrapInner env info i v w)) =
    firstn n (bootstrapStatements env info password v).
Proof.
  rewrite BootstrapInner_run. unfold bootstrapStatements.
  destruct (instance_GetSuperUserDB env i w) as [[db [e0|]] w1];
    [exists "", 0; reflexivity|].
  destruct (ConfigureApplicationEnvironment_prefix info db w1)
    as (password & n & Hstatements & Hall).
  exists password.
  destruct (ConfigureApplicationEnvironment env info db w1) as [[[e1|] w2] t2];
    cbn [trace result fst snd statements] in *.
  - rewrite Hstatements.
    destruct n as [|[|[|[|n]]]];
      [exists 0 | exists 1 | exists 2 | exists 3 | exists 4; destruct n];
      reflexivity.
  - rewrite (Hall eq_refl) in Hstatements. cbn [firstn] in Hstatements.
    destruct (v >=? 12)%Z.
    + rewrite ConfigureReplica_run.
      destruct (sql_Exec env db (stmtPrimaryConnInfo env info) w2) as [[e5|] w3];
        cbn [trace snd statements]; rewrite statements_app, Hstatements;
        [exists 5 | exists 6]; reflexivity.
    + exists 4. cbn [trace snd statements]. rewrite Hstatements. reflexivity.
Qed.

(** X11. If [CreateDataDirectory] fails, [Bootstrap] returns its error as
    it is and does nothing more: the version is not queried and no
    instance is started. *)
Theorem Bootstrap_CreateDataDirectory_failure
    (info : InitInfo) (w w1 : W) (t1 : list (Call DB)) (e : error_value) :
  CreateDataDirectory env info w = (Some e, w1, t1) ->
  Bootstrap env info w = (Some e, w1, t1).
Proof.
  intros Hcreate. now rewrite Bootstrap_run, Hcreate.
Qed.

End OrchestratorStages.

(** ** The restore command, on its other paths *)

Section RestorePaths.
Import Restore Shape.
Context {W : Type} (env : Env W).

Ltac restore :=
  unfold restoreSubCommand, cleanupDataDirectoryIfNeeded,
    CheckTargetDataDirectory, RestoreBackup, RemoveDirectory, LogError, LogInfo,
    bind, call, emit, ret.

(** X12. When the target data directory is refused, the command returns
    that error after the one call of [CheckTargetDataDirectory]: the
    restore is not attempted, nothing is logged and nothing is removed. *)
Theorem restoreSubCommand_target_refused
    (info : InitInfo) (w w1 : W) (e : error_value) :
  info_CheckTargetDataDirectory env info w = (Some e, w1) ->
  restoreSubCommand env info w = (Some e, w1, [CCheckTargetDataDirectory info]).
Proof.
  intros Hcheck. restore. rewrite Hcheck. reflexivity.
Qed.

(** X13. When the target is accepted and the restore succeeds, the
    command returns nil, its calls being the check, the restore and the
    log line of completion: the data directory is not removed. *)
Theorem restoreSubCommand_success (info : InitInfo) (w w1 w2 : W) :
  info_CheckTargetDataDirectory env info w = (None, w1) ->
  info_Restore env info w1 = (None, w2) ->
  restoreSubCommand env info w =
  (None, w2,
   [CCheckTargetDataDirectory info; CRestore info;
    CLogInfo "restore command execution completed without errors" []]).
Proof.
  intros Hcheck Hrestore. restore. rewrite Hcheck. cbn [negb is_nil].
  rewrite Hrestore. reflexivity.
Qed.

(** X14. In every run the command calls [RemoveDirectory] at most once,
    and never with an argument other than [PgData]. *)
Theorem restoreSubCommand_removes_only_PgData (info : InitInfo) (w : W) :
  List.length (List.filter isRemoval (trace (restoreSubCommand env info w))) <= 1 /\
  (forall dir,
      In (CRemoveDirectory dir) (trace (restoreSubCommand env info w)) ->
      dir = PgData info).
Proof.
  restore.
  destruct (info_CheckTargetDataDirectory env info w) as [[e0|] w1];
    cbn [negb is_nil]; [cbn; intuition (discriminate || lia)|].
  destruct (info_Restore env info w1) as [[e|] w2];
    cbn [negb is_nil As_CloudRestoreError];
    [|cbn; intuition (discriminate || lia)].
  destruct (As_CloudRestoreError_value e) as [[[|]]|]; cbn [IsRetriable negb];
    try (cbn; intuition (discriminate || lia)).
  destruct (fileutils_RemoveDirectory env (PgData info) w2) as [[err|] w3];
    cbn [is_nil negb andb];
    try destruct (os_IsNotExist env (Some err));
    cbn; (split; [lia|]); intros dir Hin;
    repeat (destruct Hin as [Hin|Hin];
            [try discriminate Hin; try (injection Hin as <-; reflexivity)|]);
    contradiction.
Qed.

(** X15. The result of the command is the first error among the answer
    of [CheckTargetDataDirectory] and the answer of [Restore], and nil
    when both are nil: neither the classification of the error nor the
    outcome of the removal changes it. *)
Theorem restoreSubCommand_result (info : InitInfo) (w : W) :
  result (restoreSubCommand env info w) =
  match fst (info_CheckTargetDataDirectory env info w) with
  | Some e => Some e
  | None =>
      fst (info_Restore env info (snd (info_CheckTargetDataDirectory env info w)))
  end.
Proof.
  restore.
  destruct (info_CheckTargetDataDirectory env info w) as [[e0|] w1];
    cbn [negb is_nil fst snd]; [reflexivity|].
  destruct (info_Restore env info w1) as [[e|] w2];
    cbn [negb is_nil As_CloudRestoreError fst]; [|reflexivity].
  destruct (As_CloudRestoreError_value e) as [[[|]]|]; cbn [IsRetriable negb];
    try reflexivity.
  destruct (fileutils_RemoveDirectory env (PgData info) w2) as [[err|] w3];
    cbn [is_nil negb andb]; try destruct (os_IsNotExist env (Some err)); reflexivity.
Qed.

End RestorePaths.

(** ** The hooks *)

Section HooksOrder.
Import Hooks.
Context {W : Type} (env : Env W).

(** X16. [PostRunE] tells the Linkerd proxy to shut down only after the
    Istio proxy accepted to quit: when [TryInvokeQuitEndpoint] fails its
    error is the result and [TryInvokeShutdownEndpoint] is not invoked;
    otherwise the result is the answer of [TryInvokeShutdownEndpoint]. *)
Theorem PostRunE_stops_at_first_error (w : W) :
  PostRunE env w =
  match istio_TryInvokeQuitEndpoint env w with
  | (Some e, w1) => (Some e, w1, [CTryInvokeQuitEndpoint])
  | (None, w1) =>
      (fst (linkerd_TryInvokeShutdownEndpoint env w1),
       snd (linkerd_TryInvokeShutdownEndpoint env w1),
       [CTryInvokeQuitEndpoint; CTryInvokeShutdownEndpoint])
  end.
Proof.
  unfold PostRunE, bind, call, ret.
  destruct (istio_TryInvokeQuitEndpoint env w) as [[e|] w1]; cbn [negb is_nil];
    [reflexivity|].
  destruct (linkerd_TryInvokeShutdownEndpoint env w1) as [r w2]; reflexivity.
Qed.

End HooksOrder.

(** ** The further properties on scripted runs *)

Lemma CreateDataDirectory_initdb_failure_witness :
  Postgres.CreateDataDirectory (Scripted.env Runs.initdbFails) Scripted.request 0 =
  (Some (Wrap (Opaque "exit status 1") "Error while creating the PostgreSQL instance"), 1,
   [Postgres.CLogInfo "Creating new data directory"
      [("pgdata", "/var/lib/postgresql/data/pgdata")];
    Postgres.CCombinedOutput "initdb" (Postgres.initdbOptions Scripted.request);
    Postgres.CLogInfo "initdb output" [("output", "initdb: error")]]).
Proof.
  exact (CreateDataDirectory_initdb_failure
           (Scripted.env Runs.initdbFails) Scripted.request 0 1
           "initdb: error" (Opaque "exit status 1") eq_refl).
Defined.

Lemma CreateDataDirectory_append_failure_witness :
  result (Postgres.CreateDataDirectory
            (Scripted.env Scripted.accessRulesUnreadable) Scripted.request 0)
  = Some (Wrap (Opaque "append failed")
               "appending to pg_hba.conf file resulted in an error")
  /\
  result (Postgres.CreateDataDirectory
            (Scripted.env Runs.extraConfigurationUnreadable) Scripted.request 0)
  = Some (Wrap (Opaque "append failed")
               "appending to postgresql.conf file resulted in an error").
Proof.
  split.
  - rewrite (proj1 (CreateDataDirectory_append_failure
                      (Scripted.env Scripted.accessRulesUnreadable) Scripted.request
                      0 1 "" eq_refl)
                   (Opaque "append failed") 2 eq_refl eq_refl).
    reflexivity.
  - rewrite (proj2 (CreateDataDirectory_append_failure
                      (Scripted.env Runs.extraConfigurationUnreadable) Scripted.request
                      0 1 "" eq_refl)
                   (Opaque "append failed") 2 3 eq_refl eq_refl eq_refl).
    reflexivity.
Defined.

Lemma CreateDataDirectory_errors_wrapped_witness :
  exists cause msg,
    Wrap (Opaque "append failed") "appending to pg_hba.conf file resulted in an error"
    = Wrap cause msg /\
    In msg Shape.provisioningMessages.
Proof.
  exact (CreateDataDirectory_errors_wrapped
           (Scripted.env Scripted.accessRulesUnreadable) Scripted.request 0 _ eq_refl).
Defined.

Lemma CreateDataDirectory_success_stanza_last_witness :
  exists calls w',
    trace (Postgres.CreateDataDirectory (Scripted.env Scripted.script) Scripted.request 0)
    = (calls ++ [Postgres.CAppendStringToFile
                   "/var/lib/postgresql/data/pgdata/postgresql.conf"
                   Postgres.archiveStanza])%list /\
    Postgres.fileutils_AppendStringToFile (Scripted.env Scripted.script)
      "/var/lib/postgresql/data/pgdata/postgresql.conf" Postgres.archiveStanza w'
    = (None, 4).
Proof.
  exact (CreateDataDirectory_success_stanza_last
           (Scripted.env Scripted.script) Scripted.request 0 eq_refl).
Defined.

Lemma VerifyConfiguration_accepts_iff_witness :
  result (Postgres.VerifyConfiguration (Scripted.env Scripted.script) Scripted.request 0)
  = None.
Proof.
  apply (VerifyConfiguration_accepts_iff
           (Scripted.env Scripted.script)
           (fun p => Scripted.member p (Scripted.present Scripted.script))
           Scripted.request 0 (fun p w0 => eq_refl)).
  repeat split; try reflexivity; try (right; reflexivity); discriminate.
Defined.

Lemma VerifyConfiguration_errors_witness :
  In (Errorf "PGData directories already exist")
     (Shape.validatorErrors Scripted.request) \/
  exists p w0 found,
    In (Postgres.CFileExists p)
       (Shape.validatorQueries (DB := Scripted.DB) Scripted.request) /\
    fst (Postgres.fileutils_FileExists (Scripted.env Scripted.occupied) p w0)
    = (found, Some (Errorf "PGData directories already exist")).
Proof.
  exact (VerifyConfiguration_errors
           (Scripted.env Scripted.occupied) Scripted.request 0 _ eq_refl).
Defined.

Lemma BootstrapInner_only_replica_errors_witness :
  (12 <= 13)%Z /\
  exists db w1 w2,
    Postgres.instance_GetSuperUserDB (Scripted.env Runs.replicaRefused)
      (Postgres.GetInstance Scripted.request) 6 = ((db, None), w1) /\
    result (Postgres.ConfigureReplica (Scripted.env Runs.replicaRefused)
              Scripted.request db w2)
    = Some (Opaque "pq: statement failed").
Proof.
  exact (BootstrapInner_only_replica_errors
           (Scripted.env Runs.replicaRefused) Scripted.request
           (Postgres.GetInstance Scripted.request) 13 6 _ eq_refl).
Defined.

Lemma Bootstrap_CreateDataDirectory_failure_witness :
  result (Postgres.Bootstrap (Scripted.env Runs.initdbFails) Scripted.request 0)
  = Some (Wrap (Opaque "exit status 1") "Error while creating the PostgreSQL instance")
  /\ List.length
       (trace (Postgres.Bootstrap (Scripted.env Runs.initdbFails) Scripted.request 0))
     = 3.
Proof.
  rewrite (Bootstrap_CreateDataDirectory_failure
             (Scripted.env Runs.initdbFails) Scripted.request 0 1 _ _ eq_refl).
  split; reflexivity.
Defined.

Lemma restoreSubCommand_target_refused_witness :
  Restore.restoreSubCommand (ScriptedRestore.env Runs.targetRefused)
                            ScriptedRestore.request 0
  = (Some (Opaque "target is not empty"), 1,
     [Restore.CCheckTargetDataDirectory ScriptedRestore.request]).
Proof.
  exact (restoreSubCommand_target_refused
           (ScriptedRestore.env Runs.targetRefused) ScriptedRestore.request 0 1 _ eq_refl).
Defined.

Lemma restoreSubCommand_success_witness :
  Restore.restoreSubCommand (ScriptedRestore.env Runs.restored) ScriptedRestore.request 0
  = (None, 2,
     [Restore.CCheckTargetDataDirectory ScriptedRestore.request;
      Restore.CRestore ScriptedRestore.request;
      Restore.CLogInfo "restore command execution completed without errors" []]).
Proof.
  exact (restoreSubCommand_success
           (ScriptedRestore.env Runs.restored) ScriptedRestore.request 0 1 2
           eq_refl eq_refl).
Defined.

(** The mesh sidecar refusing to quit, the proxy is not told to shut
    down. *)
Example PostRunE_sidecar_refuses :
  Hooks.PostRunE (Runs.hooks (Some (Opaque "connection refused"))) 0
  = (Some (Opaque "connection refused"), 1, [Hooks.CTryInvokeQuitEndpoint]).
Proof. reflexivity. Qed.
